(** * PyCheckoutPspApiCli: the [CheckoutCli] client of [pycheckoutcli.py]

    A shallow embedding of the class [CheckoutCli] as it runs under
    Python 3 (3.7 or later: dictionaries iterate in insertion order), and the
    properties of its request building, signing, validation and sending.

    Conventions of the embedding.
    - A Python value is a [pyval]: [None], booleans, integers, strings, lists
      and dictionaries with string keys.  A [str] is the list of the bytes of
      its UTF-8 encoding, a dictionary the association list of its items in
      insertion order, with distinct keys (a lookup takes the first).
    - [str] of a value is taken in full: the interpreter's limit on the
      digits of an integer is not modelled, and text inside a list or a
      dictionary is taken to be printable ([str_exact] names the values for
      which neither matters).
    - A call either returns or raises: [result A] is [Ok a] or [Raise e].
    - The clock ([datetime.now]) and the wire ([requests.post],
      [requests.get]) are the two effects; they are threaded through a
      [world].  Logging has no effect on any result and is left out. *)

From Stdlib Require Import String Ascii List ZArith Bool Lia DecimalString.
Import ListNotations.
Open Scope string_scope.

(** ** Python values *)

#[warnings="-register-all"]
Inductive pyval : Type :=
| PNone
| PBool (b : bool)
| PInt (z : Z)
| PStr (s : string)
| PList (l : list pyval)
| PDict (d : list (string * pyval)).

Definition dict : Type := list (string * pyval).

(** ** Exceptions and results *)

(** The exceptions the module raises itself carry their message.  [TypeError]
    is only ever raised by the interpreter (its text differs between
    versions and is not kept); [NameError] and [UnboundLocalError] carry the
    name that has no value, [AttributeError] the attribute that is missing;
    [PyException] is the base class [Exception]; [RequestException] is whatever the transport
    library raises. *)
Inductive pyexc : Type :=
| KeyError (arg : string)
| ValueError (arg : string)
| TypeError
| NameError (name : string)
| UnboundLocalError (name : string)
| AttributeError (name : string)
| PyException (arg : string)
| RequestException (arg : string).

Inductive result (A : Type) : Type :=
| Ok (a : A)
| Raise (e : pyexc).

Arguments Ok {A} a.
Arguments Raise {A} e.

Definition bind {A B : Type} (m : result A) (k : A -> result B) : result B :=
  match m with
  | Ok a => k a
  | Raise e => Raise e
  end.

Notation "x <- m ;; k" := (bind m (fun x => k))
  (at level 61, m at next level, right associativity).
Notation "m ;;; k" := (bind m (fun _ => k))
  (at level 61, right associativity).

Definition is_ok {A : Type} (r : result A) : bool :=
  match r with Ok _ => true | Raise _ => false end.

(** ** Builtins *)

Module Builtins.

(** [v is None] *)
Definition is_None (v : pyval) : bool :=
  match v with PNone => true | _ => false end.

(** [v == s] for a string constant [s]: only a [str] equals a [str]. *)
Definition py_eq_str (v : pyval) (s : string) : bool :=
  match v with PStr t => String.eqb t s | _ => false end.

(** [v == n] for an integer constant [n]: [bool] is a subclass of [int],
    [True == 1] and [False == 0]. *)
Definition py_eq_int (v : pyval) (n : Z) : bool :=
  match v with
  | PInt z => Z.eqb z n
  | PBool b => Z.eqb (if b then 1 else 0) n
  | _ => false
  end.

(** [isinstance(v, six.string_types)], which is [(str,)] under Python 3. *)
Definition isinstance_str (v : pyval) : bool :=
  match v with PStr _ => true | _ => false end.

(** [isinstance(v, int)]: true of booleans too. *)
Definition isinstance_int (v : pyval) : bool :=
  match v with PInt _ | PBool _ => true | _ => false end.

(** [type(v) is dict] *)
Definition type_is_dict (v : pyval) : bool :=
  match v with PDict _ => true | _ => false end.

(** A byte of a UTF-8 encoding that continues a character (10xxxxxx). *)
Definition is_continuation (c : ascii) : bool :=
  let n := nat_of_ascii c in (128 <=? n)%nat && (n <? 192)%nat.

(** [len(s)]: the number of characters (code points), not of bytes. *)
Fixpoint py_len_str (s : string) : nat :=
  match s with
  | EmptyString => 0
  | String c r => (if is_continuation c then 0 else 1) + py_len_str r
  end.

(** [s + v] for a [str] [s]: anything but a [str] on the right is a
    [TypeError]. *)
Definition py_concat (s : string) (v : pyval) : result string :=
  match v with
  | PStr t => Ok (s ++ t)
  | _ => Raise TypeError
  end.

(** [needle in hay] for two strings: [needle] occurs in [hay]. *)
Fixpoint str_contains (needle hay : string) : bool :=
  String.prefix needle hay ||
  match hay with
  | EmptyString => false
  | String _ r => str_contains needle r
  end.

(** Dictionary lookup, [d.get(k)] with [None] for Rocq's [None]. *)
Fixpoint dict_get (d : dict) (k : string) : option pyval :=
  match d with
  | [] => None
  | (k', v) :: r => if String.eqb k' k then Some v else dict_get r k
  end.

Definition dict_keys (d : dict) : list string := map fst d.

(** [d[k] = v]: the value of an existing key is replaced in place, a new key
    goes last. *)
Fixpoint dict_set (d : dict) (k : string) (v : pyval) : dict :=
  match d with
  | [] => [(k, v)]
  | (k', v') :: r =>
      if String.eqb k' k then (k', v) :: r else (k', v') :: dict_set r k v
  end.

(** [k in c] for a string [k]: a key of a dictionary, an element of a list,
    a substring of a string; the other values are not containers. *)
Definition py_contains (c : pyval) (k : string) : result bool :=
  match c with
  | PDict d => Ok (existsb (String.eqb k) (dict_keys d))
  | PList l => Ok (existsb (fun v => py_eq_str v k) l)
  | PStr s => Ok (str_contains k s)
  | _ => Raise TypeError
  end.

(** [c[k]] for a string [k]: defined on dictionaries only; lists and strings
    take integer indices, the other values are not subscriptable. *)
Definition py_getitem (c : pyval) (k : string) : result pyval :=
  match c with
  | PDict d =>
      match dict_get d k with
      | Some v => Ok v
      | None => Raise (KeyError k)
      end
  | _ => Raise TypeError
  end.

(** [len(v)] *)
Definition py_len (v : pyval) : result nat :=
  match v with
  | PStr s => Ok (py_len_str s)
  | PList l => Ok (length l)
  | PDict d => Ok (length d)
  | _ => Raise TypeError
  end.

(** The statement [v.upper()], whose value is dropped: only a [str] has the
    method. *)
Definition py_upper_call (v : pyval) : result unit :=
  match v with
  | PStr _ => Ok tt
  | _ => Raise (AttributeError "upper")
  end.

(** A [for] loop over [l] whose body updates [s] or raises. *)
Fixpoint for_each {A S : Type} (l : list A) (body : A -> S -> result S) (s : S) : result S :=
  match l with
  | [] => Ok s
  | x :: r => s' <- body x s ;; for_each r body s'
  end.

(** [sorted] on strings: insertion sort by code point, which on UTF-8
    encodings is the order of the bytes. *)
Fixpoint insert_sorted (k : string) (l : list string) : list string :=
  match l with
  | [] => [k]
  | h :: t => if String.leb k h then k :: l else h :: insert_sorted k t
  end.

Definition sorted (l : list string) : list string :=
  fold_right insert_sorted [] l.

(** [sep.join(l)] *)
Fixpoint join (sep : string) (l : list string) : string :=
  match l with
  | [] => EmptyString
  | [x] => x
  | x :: r => x ++ sep ++ join sep r
  end.

(** *** [str] and [repr] *)

Definition quote1 : ascii := ascii_of_nat 39.
Definition quote2 : ascii := ascii_of_nat 34.
Definition backslash : ascii := ascii_of_nat 92.
Definition newline : string := String (ascii_of_nat 10) EmptyString.

Definition hex_digit (n : nat) : ascii :=
  if (n <? 10)%nat then ascii_of_nat (48 + n) else ascii_of_nat (87 + n).

Definition char (c : ascii) : string := String c EmptyString.

(** One character of [repr(s)] inside the quote [q].  Bytes from 128 up
    belong to characters outside ASCII and are kept, as [repr] does with
    printable text; [repr] escapes the characters outside ASCII that are not
    printable (U+0085, U+00A0, U+2028 and the like), which this does not, so
    the [repr] of such text is not the one given here (see [str_exact]). *)
Definition repr_char (q c : ascii) : string :=
  let n := nat_of_ascii c in
  if Ascii.eqb c backslash then String backslash (char backslash)
  else if Ascii.eqb c q then String backslash (char q)
  else if (n =? 10)%nat then String backslash "n"
  else if (n =? 13)%nat then String backslash "r"
  else if (n =? 9)%nat then String backslash "t"
  else if (n <? 32)%nat || (n =? 127)%nat then
    String backslash (String "x" (String (hex_digit (n / 16)) (char (hex_digit (n mod 16)))))
  else char c.

Fixpoint has_char (c : ascii) (s : string) : bool :=
  match s with
  | EmptyString => false
  | String c' r => Ascii.eqb c c' || has_char c r
  end.

Fixpoint repr_chars (q : ascii) (s : string) : string :=
  match s with
  | EmptyString => EmptyString
  | String c r => repr_char q c ++ repr_chars q r
  end.

(** [repr(s)]: single quotes, unless [s] has a single quote and no double
    quote. *)
Definition repr_str (s : string) : string :=
  let q := if has_char quote1 s && negb (has_char quote2 s) then quote2 else quote1 in
  String q (repr_chars q s ++ char q).

(** [str(z)] of an integer, in full.  An interpreter with a limit on the
    digits of such a conversion (4300 by default since 3.11, never below
    640) raises [ValueError] beyond it; the limit is not modelled (see
    [str_exact]). *)
Definition str_int (z : Z) : string := NilZero.string_of_int (Z.to_int z).

Fixpoint py_repr (v : pyval) : string :=
  match v with
  | PNone => "None"
  | PBool true => "True"
  | PBool false => "False"
  | PInt z => str_int z
  | PStr s => repr_str s
  | PList l => "[" ++ join ", " (map py_repr l) ++ "]"
  | PDict d =>
      "{" ++ join ", " (map (fun kv => repr_str (fst kv) ++ ": " ++ py_repr (snd kv)) d) ++ "}"
  end.

(** [str(v)]: a string is itself, everything else prints as its [repr]. *)
Definition py_str (v : pyval) : string :=
  match v with
  | PStr s => s
  | _ => py_repr v
  end.

(** The values on which [py_str] is [str] under every interpreter: strings
    (no [repr] is taken), booleans, and integers of at most 640 digits (no
    digit limit applies).  [None] prints exactly too; it is left out because
    the constructor, which is where this is asked, refuses it before. *)
Definition str_exact (v : pyval) : Prop :=
  match v with
  | PStr _ | PBool _ => True
  | PInt z => (Z.abs z < 10 ^ 640)%Z
  | _ => False
  end.

End Builtins.
Import Builtins.

(** ** The module's names *)

(** What [pycheckoutcli.py] binds at module level: its five imports and the
    class.  A method that reads a name finds one of its own locals, or one of
    these (a module or the class, which is no data value), or a builtin;
    any other name raises [NameError]. *)
Definition module_names : list string :=
  ["logging"; "requests"; "hmac"; "six"; "datetime"; "CheckoutCli"].

Inductive binding : Type :=
| Data (v : pyval)
| ModuleObject (name : string).

Definition read_name (locals : dict) (n : string) : result binding :=
  match dict_get locals n with
  | Some v => Ok (Data v)
  | None =>
      if existsb (String.eqb n) module_names then Ok (ModuleObject n)
      else Raise (NameError n)
  end.

(** A local that is read before any assignment to it has run. *)
Definition read_local {A : Type} (n : string) (slot : option A) : result A :=
  match slot with
  | Some a => Ok a
  | None => Raise (UnboundLocalError n)
  end.

(** ** The client object *)

Record CheckoutCli : Type := {
  _is_test_mode : pyval;
  _base_api_end_point : string;
  _merchant_id : pyval;
  _secret_key : string
}.

Definition _algorithm : string := "sha256".

Definition _accepted_api_type : list string :=
  ["Payments"; "PaymentDetails"; "Refund"; "ListProviders"].

(** [CheckoutCli(is_test_mode, merchant_id, secret_key)]; the defaults are
    [0], [None] and [None]. *)
Definition __init__ (is_test_mode merchant_id secret_key : pyval) : result CheckoutCli :=
  if py_eq_int is_test_mode 1 then
    Ok {| _is_test_mode := is_test_mode;
          _base_api_end_point := "https://api.checkout.fi";
          _merchant_id := PStr "375917";
          _secret_key := "SAIPPUAKAUPPIAS" |}
  else
    if is_None merchant_id then Raise (KeyError "Missing merchant id")
    else if is_None secret_key then Raise (KeyError "Missing secret key")
    else
      Ok {| _is_test_mode := is_test_mode;
            _base_api_end_point := "https://api.checkout.fi";
            _merchant_id := merchant_id;
            _secret_key := py_str secret_key |}.

(** ** URLs *)

Definition validate_trans_id_data (transaction_id : pyval) : result unit :=
  if is_None transaction_id || py_eq_str transaction_id EmptyString
  then Raise (ValueError "Undefined transaction id")
  else Ok tt.

(** An [api_type] that is none of the four leaves [post_url] at [None]. *)
Definition get_post_url (self : CheckoutCli) (api_type transaction_id : pyval) : result pyval :=
  if py_eq_str api_type "Payments" then
    Ok (PStr (_base_api_end_point self ++ "/payments"))
  else if py_eq_str api_type "PaymentDetails" then
    validate_trans_id_data transaction_id ;;;
    u <- py_concat (_base_api_end_point self ++ "/payments/") transaction_id ;;
    Ok (PStr u)
  else if py_eq_str api_type "Refund" then
    validate_trans_id_data transaction_id ;;;
    u <- py_concat (_base_api_end_point self ++ "/payments/") transaction_id ;;
    Ok (PStr (u ++ "/refund"))
  else if py_eq_str api_type "ListProviders" then
    Ok (PStr (_base_api_end_point self ++ "/merchants/payment-providers"))
  else Ok PNone.

(** ** The world: clock and wire *)

Record datetime : Type := {
  year : nat; month : nat; day : nat;
  hour : nat; minute : nat; second : nat
}.

Definition digits (n : nat) : string := NilZero.string_of_uint (Nat.to_uint n).

Definition pad2 (n : nat) : string :=
  if (n <? 10)%nat then "0" ++ digits n else digits n.

Definition pad4 (n : nat) : string :=
  if (n <? 10)%nat then "000" ++ digits n
  else if (n <? 100)%nat then "00" ++ digits n
  else if (n <? 1000)%nat then "0" ++ digits n
  else digits n.

(** [t.strftime('%Y-%m-%dT%H%M%S')] *)
Definition strftime (t : datetime) : string :=
  pad4 (year t) ++ "-" ++ pad2 (month t) ++ "-" ++ pad2 (day t) ++ "T" ++
  pad2 (hour t) ++ pad2 (minute t) ++ pad2 (second t).

(** A call of [requests.post] or [requests.get] with its keyword arguments;
    an argument that is not passed has its default, [None]. *)
Record request : Type := {
  verb : string;
  url : pyval;
  data : pyval;
  params : pyval;
  headers : dict
}.

Record response : Type := {
  status_code : Z;
  content : string
}.

(** The remote side: what it answers to a request, given the requests it
    has seen before; it may also fail to answer. *)
Definition transport : Type := list request -> request -> result response.

Record world : Type := {
  now : datetime;
  wire : list request
}.

Definition io (A : Type) : Type := world -> result A * world.

Definition ret {A : Type} (a : A) : io A := fun w => (Ok a, w).

Definition throw {A : Type} (e : pyexc) : io A := fun w => (Raise e, w).

Definition lift {A : Type} (r : result A) : io A := fun w => (r, w).

Definition io_bind {A B : Type} (m : io A) (k : A -> io B) : io B :=
  fun w =>
    match m w with
    | (Ok a, w') => k a w'
    | (Raise e, w') => (Raise e, w')
    end.

Notation "x <<- m ;; k" := (io_bind m (fun x => k))
  (at level 61, m at next level, right associativity).
Notation "m >>> k" := (io_bind m (fun _ => k))
  (at level 61, right associativity).

Definition datetime_now : io datetime := fun w => (Ok (now w), w).

Definition requests_call (net : transport) (rq : request) : io response :=
  fun w => (net (wire w) rq, {| now := now w; wire := wire w ++ [rq] |}).

(** ** Request headers *)

Definition get_req_header_dict (self : CheckoutCli)
    (api_type method request_id trans_id time_stamp_string : pyval) : io dict :=
  if negb (existsb (py_eq_str api_type) _accepted_api_type) then
    throw (ValueError "Invalid value in api_type parameter")
  else if (py_eq_str api_type "PaymentDetails" || py_eq_str api_type "Refund")
          && is_None trans_id then
    throw (KeyError "Missing data to trans_id parameter")
  else
    (* the local [time_stamp] is assigned in one branch only *)
    time_stamp <<- (if is_None time_stamp_string
                    then t <<- datetime_now ;; ret (Some (strftime t))
                    else ret None) ;;
    stamp <<- lift (read_local "time_stamp" time_stamp) ;;
    let header_dict : dict :=
      [ ("checkout-account", _merchant_id self);
        ("checkout-algorithm", PStr _algorithm);
        ("checkout-method", method);
        ("checkout-nonce", request_id);
        ("checkout-timestamp", PStr stamp) ] in
    if py_eq_str api_type "PaymentDetails" || py_eq_str api_type "Refund"
    then ret (dict_set header_dict "checkout-transaction-id" trans_id)
    else ret header_dict.

(** ** Signing *)

(** The keyword arguments of [get_hash_sha256]: the two it reads, each given
    or not; [headers], when given, is a header dictionary. *)
Record hmac_kwargs : Type := {
  kw_headers : option dict;
  kw_body : option pyval
}.

Definition kwargs_len (kwargs : hmac_kwargs) : nat :=
  (match kw_headers kwargs with Some _ => 1 | None => 0 end) +
  (match kw_body kwargs with Some _ => 1 | None => 0 end).

Section Signing.

(** [hmac.new(key, msg, hashlib.sha256).hexdigest()] on the UTF-8 bytes of
    key and message: the library's function, not this module's. *)
Variable hmac_sha256_hexdigest : string -> string -> string.

Definition get_hash_sha256 (self : CheckoutCli) (kwargs : hmac_kwargs) : result string :=
  if (kwargs_len kwargs =? 0)%nat then Raise (KeyError "Expect input parameters")
  else
    let secret_key := _secret_key self in
    headers <- match kw_headers kwargs with
               | Some h => Ok h
               | None => Raise (KeyError "headers")
               end ;;
    (* [sorted] of a dictionary is the sorted list of its keys *)
    let header_dict := PList (map PStr (sorted (dict_keys headers))) in
    let body := match kw_body kwargs with Some b => b | None => PNone end in
    items <- for_each (sorted (sorted (dict_keys headers)))
               (fun key items =>
                  (* the argument of the debug message *)
                  py_getitem header_dict key ;;;
                  value <- py_getitem header_dict key ;;
                  temp_string <- py_concat (key ++ ":") value ;;
                  Ok (items ++ [PStr temp_string])%list)
               [] ;;
    let items := if is_None body then items else (items ++ [body])%list in
    let plain_text := join newline (map py_str items) in
    let plain_text := if is_None body then plain_text ++ newline else plain_text in
    read_name [] "sys" ;;;
    read_name [] "hashlib" ;;;
    Ok (hmac_sha256_hexdigest secret_key plain_text).

End Signing.

(** ** Sending *)

(** [headers] collects the keyword arguments that are not named parameters,
    so it is always a dictionary and the test [headers is None] never
    holds. *)
Definition send_request (net : transport)
    (send_method _api_post_url req_input : pyval) (headers : dict) : io response :=
  if is_None _api_post_url || py_eq_str _api_post_url EmptyString then
    throw (ValueError "Need post URL data")
  else
    res_obj <<- (if py_eq_str send_method "POST" then
                   if is_None req_input then
                     requests_call net {| verb := "post"; url := _api_post_url;
                                          data := PNone; params := PNone;
                                          headers := headers |}
                   else
                     requests_call net {| verb := "post"; url := _api_post_url;
                                          data := req_input; params := PNone;
                                          headers := headers |}
                 else
                   if is_None req_input then
                     requests_call net {| verb := "get"; url := _api_post_url;
                                          data := PNone; params := PNone;
                                          headers := headers |}
                   else
                     requests_call net {| verb := "get"; url := _api_post_url;
                                          data := req_input; params := req_input;
                                          headers := headers |}) ;;
    let res_status_code := status_code res_obj in
    if negb (Z.eqb res_status_code 200) && negb (Z.eqb res_status_code 201) then
      let error_text := content res_obj in
      throw (PyException error_text)
    else ret res_obj.

(** ** Validation of a payment *)

Definition get_create_payment_keys : list string :=
  ["stamp"; "reference"; "amount"; "currency"; "language"; "items"; "customer";
   "deliveryAddress"; "invoicingAddress"; "redirectUrls"; "callbackUrls"].

(** A loop whose body only checks. *)
Definition check_each {A : Type} (l : list A) (body : A -> result unit) : result unit :=
  for_each l (fun x _ => body x) tt.

(** Calling a method of the client with the items of [v] as keyword
    arguments (the double-star call): [v] must be a mapping, and no key of it
    may be [self], the one parameter the call binds already; the call raises
    [TypeError] otherwise, before the method runs. *)
Definition unpack_kwargs (v : pyval) : result dict :=
  match v with
  | PDict d =>
      if existsb (String.eqb "self") (dict_keys d) then Raise TypeError else Ok d
  | _ => Raise TypeError
  end.

Definition validate_create_payment_input (kwargs : dict) : result unit :=
  if (length kwargs =? 0)%nat then Raise (KeyError "Expect input parameters")
  else
    check_each get_create_payment_keys
      (fun key =>
         let value := match dict_get kwargs key with Some v => v | None => PNone end in
         if is_None value then Raise (ValueError ("Missing " ++ key ++ " parameter"))
         else Ok tt).

(** [key_dict] maps a key to whether it is mandatory; [None] is the default
    of both parameters. *)
Definition validate_data_dict (key_dict : option (list (string * bool)))
    (data_dict : pyval) : result unit :=
  match key_dict with
  | None => Raise (KeyError "Missing key mapping data in key_dict parameter")
  | Some keys =>
      if is_None data_dict then Raise (KeyError "Missing value in data_dict parameter")
      else
        check_each keys
          (fun entry =>
             let key := fst entry in
             if snd entry then
               present <- py_contains data_dict key ;;
               if negb present then Raise (KeyError ("Missing mandatory key: " ++ key))
               else
                 value <- py_getitem data_dict key ;;
                 if is_None value
                 then Raise (KeyError ("Invalid value in " ++ key ++ " parameter"))
                 else Ok tt
             else Ok tt)
  end.

Definition customer_keySet : list (string * bool) :=
  [("firstName", true); ("lastName", true); ("email", true);
   ("phone", false); ("vatId", false)].

Definition validate_customer_key_value_in_create_payment (customer_dict : pyval) : result unit :=
  if is_None customer_dict then Raise (KeyError "Missing customer_dict parameter")
  else validate_data_dict (Some customer_keySet) customer_dict.

Definition validate_language_code2 (language_code : pyval) : result unit :=
  if is_None language_code then Raise (KeyError "Missing language_code parameter")
  else if negb (isinstance_str language_code) then
    Raise (ValueError "Expect string data type for language parameter")
  else
    code_length <- py_len language_code ;;
    if (2 <? code_length)%nat then
      Raise (ValueError "Invalid language code value length. Expected 2 letters of language code")
    else if negb (py_eq_str language_code "FI") && negb (py_eq_str language_code "SV")
            && negb (py_eq_str language_code "EN") then
      Raise (ValueError "Invalid value. Support only FI, SV and EN")
    else Ok tt.

Definition address_keySet : list (string * bool) :=
  [("streetAddress", true); ("postalCode", true); ("city", true);
   ("county", false); ("country", true)].

(** The locals of the method are [self], [data_dict] and [keySet]; it reads
    the name [value], which is none of them. *)
Definition validate_address_value_in_create_payment (data_dict : pyval) : result unit :=
  if is_None data_dict then Raise (KeyError "Missing data_dict parameter")
  else
    validate_data_dict (Some address_keySet) data_dict ;;;
    value <- read_name [("data_dict", data_dict)] "value" ;;
    if negb (match value with Data v => isinstance_str v | ModuleObject _ => false end) then
      Raise (ValueError "Expect string data type for country parameter")
    else
      country <- py_getitem data_dict "country" ;;
      country_code_length <- py_len country ;;
      if (2 <? country_code_length)%nat then
        Raise (ValueError "Invalid country code value length. Expected 2 letters of country code")
      else
        (* [data_dict["country"].upper()]: the upper-cased copy is dropped *)
        country <- py_getitem data_dict "country" ;;
        py_upper_call country ;;;
        Ok tt.

Definition validate_int_value (key : string) (value : pyval) : result unit :=
  if negb (isinstance_int value) then
    Raise (ValueError ("Expect int value in " ++ key ++ " parameter"))
  else Ok tt.

Definition item_keySet : list (string * bool) :=
  [("unitPrice", true); ("units", true); ("vatPercentage", true);
   ("productCode", true); ("deliveryDate", true); ("description", false);
   ("category", false); ("stamp", false); ("reference", false);
   ("merchant", false); ("commission", false)].

Definition validate_item_data_in_create_payment (data_dict : pyval) : result unit :=
  if is_None data_dict then Raise (KeyError "Missing data_dict parameter")
  else
    validate_data_dict (Some item_keySet) data_dict ;;;
    unitPrice <- py_getitem data_dict "unitPrice" ;;
    validate_int_value "unitPrice" unitPrice ;;;
    units <- py_getitem data_dict "units" ;;
    validate_int_value "units" units ;;;
    vatPercentage <- py_getitem data_dict "vatPercentage" ;;
    validate_int_value "vatPercentage" vatPercentage.

Definition callback_keySet : list (string * bool) :=
  [("success", true); ("cancel", true)].

Definition validate_callback_urls_data (data_dict : pyval) : result unit :=
  if is_None data_dict then Raise (KeyError "Missing data_dict parameter")
  else validate_data_dict (Some callback_keySet) data_dict.

(** ** The canned test payment *)

(** "Lulea" with a ring on the a, in UTF-8. *)
Definition Lulea : string :=
  "Lule" ++ String (ascii_of_nat 195) (String (ascii_of_nat 165) EmptyString).

Definition test_address : pyval :=
  PDict [ ("streetAddress", PStr "Fake street 123");
          ("postalCode", PStr "00100");
          ("city", PStr Lulea);
          ("county", PStr "Norrbotten");
          ("country", PStr "Sweden") ].

Definition test_urls : pyval :=
  PDict [ ("success", PStr "https://ecom.example.org/success");
          ("cancel", PStr "https://ecom.example.org/cancel") ].

Definition test_item : pyval :=
  PDict [ ("unitPrice", PInt 1590);
          ("units", PInt 1);
          ("vatPercentage", PInt 24);
          ("productCode", PStr "#927502759");
          ("deliveryDate", PStr "2018-03-07");
          ("description", PStr "Cat ladder");
          ("category", PStr "shoe");
          ("merchant", PInt 375917);
          ("stamp", PInt 29858472952);
          ("reference", PInt 9187445);
          ("commission", PDict [("merchant", PStr "string"); ("amount", PInt 0)]) ].

Definition test_customer : pyval :=
  PDict [ ("email", PStr "john.doe@example.org");
          ("firstName", PStr "John");
          ("lastName", PStr "Doe");
          ("phone", PInt 358501234567);
          ("vatId", PStr "FI02454583") ].

Definition get_test_req_create_payment_data : pyval :=
  PDict [ ("stamp", PInt 29858472952);
          ("reference", PInt 9187445);
          ("amount", PInt 1590);
          ("currency", PStr "EUR");
          ("language", PStr "FI");
          ("items", PList [test_item]);
          ("customer", test_customer);
          ("deliveryAddress", test_address);
          ("invoicingAddress", test_address);
          ("redirectUrls", test_urls);
          ("callbackUrls", test_urls) ].

(** ** Creating a payment *)

Section Payment.

Variable hmac_sha256_hexdigest : string -> string -> string.
Variable net : transport.

Definition create_payment (self : CheckoutCli)
    (request_id input_data_dict time_stamp_string : pyval) : io response :=
  if is_None request_id then
    throw (KeyError "Missing unique request id value in request_id parameter")
  else
    input_data_dict <<-
      (if py_eq_int (_is_test_mode self) 1 then
         if is_None input_data_dict then ret get_test_req_create_payment_data
         else ret input_data_dict
       else
         if is_None input_data_dict then throw (KeyError "Missing input request parameters")
         else ret input_data_dict) ;;
    (* Start input data validation *)
    lift (kwargs <- unpack_kwargs input_data_dict ;;
          validate_create_payment_input kwargs) >>>
    currency <<- lift (py_getitem input_data_dict "currency") ;;
    if negb (py_eq_str currency "EUR") then
      throw (ValueError "Invalid currency value. Support only EUR.")
    else
      language <<- lift (py_getitem input_data_dict "language") ;;
      lift (validate_language_code2 language) >>>
      lift (l <- py_getitem input_data_dict "language" ;; py_upper_call l) >>>
      customer_dict <<- lift (py_getitem input_data_dict "customer") ;;
      if negb (type_is_dict customer_dict) then
        throw (ValueError "Invalid data type for customer key")
      else
        lift (a <- py_getitem input_data_dict "invoicingAddress" ;;
              validate_address_value_in_create_payment a) >>>
        lift (a <- py_getitem input_data_dict "deliveryAddress" ;;
              validate_address_value_in_create_payment a) >>>
        lift (i <- py_getitem input_data_dict "items" ;;
              validate_item_data_in_create_payment i) >>>
        lift (u <- py_getitem input_data_dict "redirectUrls" ;;
              validate_callback_urls_data u) >>>
        lift (u <- py_getitem input_data_dict "callbackUrls" ;;
              validate_callback_urls_data u) >>>
        (* Everything OK now can proceed sending data to Checkout *)
        post_url <<- lift (get_post_url self (PStr "Payments") PNone) ;;
        headers_dict <<- get_req_header_dict self (PStr "Payments") (PStr "POST")
                           request_id PNone time_stamp_string ;;
        signature <<- lift (get_hash_sha256 hmac_sha256_hexdigest self
                              {| kw_headers := Some headers_dict;
                                 kw_body := Some PNone |}) ;;
        let headers_dict := dict_set headers_dict "signature" (PStr signature) in
        let headers_dict := dict_set headers_dict "Content-Type"
                              (PStr "application/json; charset=utf-8") in
        let headers_dict := dict_set headers_dict "Accept" (PStr "application/json") in
        (* the call passes no header: the keyword dictionary [headers] is empty *)
        send_request net (PStr "POST") post_url input_data_dict [].

End Payment.

(** ** Concrete clients, payloads and answers *)

Definition w0 : world :=
  {| now := {| year := 2018; month := 3; day := 7; hour := 9; minute := 30; second := 5 |};
     wire := [] |}.

(** The client that [CheckoutCli(is_test_mode=1)] builds. *)
Definition test_client : CheckoutCli :=
  {| _is_test_mode := PInt 1;
     _base_api_end_point := "https://api.checkout.fi";
     _merchant_id := PStr "375917";
     _secret_key := "SAIPPUAKAUPPIAS" |}.

Definition no_email_customer : pyval :=
  PDict [ ("firstName", PStr "John"); ("lastName", PStr "Doe") ].

(** The canned payment with another currency and customer. *)
Definition payment_with (currency customer : pyval) : dict :=
  [ ("stamp", PInt 29858472952);
    ("reference", PInt 9187445);
    ("amount", PInt 1590);
    ("currency", currency);
    ("language", PStr "FI");
    ("items", PList [test_item]);
    ("customer", customer);
    ("deliveryAddress", test_address);
    ("invoicingAddress", test_address);
    ("redirectUrls", test_urls);
    ("callbackUrls", test_urls) ].

(** A remote side that answers every request alike. *)
Definition answer (status : Z) (body : string) : transport :=
  fun _ _ => Ok {| status_code := status; content := body |}.

Definition no_hmac : string -> string -> string := fun _ _ => EmptyString.

(** The JSON text of an object with one member, error: bad request. *)
Definition bad_request_body : string :=
  "{" ++ char quote2 ++ "error" ++ char quote2 ++ ":" ++
  char quote2 ++ "bad request" ++ char quote2 ++ "}".

(** ** What each check can raise *)

Definition presence_errors : list pyexc :=
  KeyError "Expect input parameters" ::
  map (fun key => ValueError ("Missing " ++ key ++ " parameter")) get_create_payment_keys.

Definition data_dict_errors (keys : list (string * bool)) : list pyexc :=
  KeyError "Missing value in data_dict parameter" :: TypeError ::
  flat_map (fun entry =>
              [ KeyError ("Missing mandatory key: " ++ fst entry);
                KeyError (fst entry);
                KeyError ("Invalid value in " ++ fst entry ++ " parameter") ]) keys.

Definition language_errors : list pyexc :=
  [ KeyError "Missing language_code parameter";
    ValueError "Expect string data type for language parameter";
    ValueError "Invalid language code value length. Expected 2 letters of language code";
    ValueError "Invalid value. Support only FI, SV and EN" ].

Definition address_errors : list pyexc :=
  KeyError "Missing data_dict parameter" :: NameError "value" ::
  data_dict_errors address_keySet.

(** Everything [create_payment] can raise once the currency is accepted. *)
Definition late_errors : list pyexc :=
  language_errors ++
  [ KeyError "language"; AttributeError "upper"; KeyError "customer";
    ValueError "Invalid data type for customer key"; KeyError "invoicingAddress" ] ++
  address_errors.

(** Everything it can raise up to and including the currency check. *)
Definition early_errors : list pyexc :=
  [ KeyError "Missing unique request id value in request_id parameter";
    KeyError "Missing input request parameters";
    TypeError ] ++
  presence_errors ++
  [ KeyError "currency"; ValueError "Invalid currency value. Support only EUR." ].

(** Closes a goal from [H : In e l] when [e] is none of the members of the
    explicit list [l]. *)
Ltac not_among H :=
  cbv in H; repeat (destruct H as [H | H]; [discriminate H|]); exact H.

(** The body of the loop of [validate_data_dict] for one entry of
    [key_dict], under a name of its own for the lemmas about it. *)
Definition check_entry (data_dict : pyval) (entry : string * bool) : result unit :=
  let key := fst entry in
  if snd entry then
    present <- py_contains data_dict key ;;
    if negb present then Raise (KeyError ("Missing mandatory key: " ++ key))
    else
      value <- py_getitem data_dict key ;;
      if is_None value
      then Raise (KeyError ("Invalid value in " ++ key ++ " parameter"))
      else Ok tt
  else Ok tt.

(** * Properties *)

(** ** The monads *)

Lemma io_bind_lift {A B : Type} (r : result A) (k : A -> io B) (w : world) :
  io_bind (lift r) k w =
  match r with Ok a => k a w | Raise e => (Raise e, w) end.
Proof. unfold io_bind, lift. destruct r; reflexivity. Qed.

Lemma io_bind_ret {A B : Type} (a : A) (k : A -> io B) (w : world) :
  io_bind (ret a) k w = k a w.
Proof. reflexivity. Qed.

Lemma check_each_raise {A : Type} (l : list A) (body : A -> result unit) (e : pyexc) :
  check_each l body = Raise e -> exists x, In x l /\ body x = Raise e.
Proof.
  unfold check_each. induction l as [|x l IH]; simpl; [discriminate|].
  destruct (body x) as [[]|e'] eqn:Hx; simpl.
  - intros H. destruct (IH H) as (y & Hy & Hb). eauto.
  - intros H. injection H as <-. eauto.
Qed.

(** ** Builtins *)

Lemma is_None_true (v : pyval) : is_None v = true <-> v = PNone.
Proof. destruct v; simpl; split; congruence. Qed.

Lemma is_None_false (v : pyval) : is_None v = false <-> v <> PNone.
Proof. destruct v; simpl; split; congruence. Qed.

Lemma py_eq_str_true (v : pyval) (s : string) : py_eq_str v s = true <-> v = PStr s.
Proof.
  destruct v; simpl; split; try congruence.
  - intros H. apply String.eqb_eq in H. congruence.
  - intros H. injection H as ->. apply String.eqb_refl.
Qed.

(** A key that [dict_get] finds is a key of the dictionary, and one it does
    not find is none. *)
Lemma dict_get_some_key (d : dict) (k : string) (v : pyval) :
  dict_get d k = Some v -> existsb (String.eqb k) (dict_keys d) = true.
Proof.
  induction d as [|[k' v'] d IH]; simpl; [discriminate|].
  destruct (String.eqb k' k) eqn:E.
  - intros _. apply String.eqb_eq in E. subst. now rewrite String.eqb_refl.
  - intros H. rewrite (IH H). apply orb_true_r.
Qed.

Lemma dict_get_none_key (d : dict) (k : string) :
  dict_get d k = None -> existsb (String.eqb k) (dict_keys d) = false.
Proof.
  induction d as [|[k' v'] d IH]; simpl; [reflexivity|].
  destruct (String.eqb k' k) eqn:E; [discriminate|].
  intros H. rewrite (IH H). rewrite String.eqb_sym, E. reflexivity.
Qed.

Lemma append_assoc (a b c : string) : (a ++ b) ++ c = a ++ b ++ c.
Proof. induction a as [|x a IH]; simpl; [reflexivity | now rewrite IH]. Qed.

Lemma insert_sorted_cons (k : string) (l : list string) :
  exists h t, insert_sorted k l = h :: t.
Proof.
  destruct l as [|x l]; simpl.
  - eauto.
  - destruct (String.leb k x); eauto.
Qed.

Lemma sorted_cons (k : string) (l : list string) :
  exists h t, sorted (k :: l) = h :: t.
Proof. unfold sorted; simpl. apply insert_sorted_cons. Qed.

Lemma no_key_in_list_of_dicts (key : string) (items : list dict) :
  py_contains (PList (map PDict items)) key = Ok false.
Proof.
  simpl. f_equal. induction items as [|d items IH]; simpl; auto.
Qed.

(** ** What the checks raise *)

Lemma validate_create_payment_input_errors (kwargs : dict) (e : pyexc) :
  validate_create_payment_input kwargs = Raise e -> In e presence_errors.
Proof.
  unfold validate_create_payment_input, presence_errors.
  destruct (length kwargs =? 0)%nat.
  - intros H. injection H as <-. now left.
  - intros H. apply check_each_raise in H. destruct H as (key & Hin & H).
    right. apply in_map_iff. exists key. split; [|exact Hin].
    destruct (is_None _); [now injection H as <- | discriminate].
Qed.

Lemma validate_data_dict_errors (keys : list (string * bool)) (data_dict : pyval) (e : pyexc) :
  validate_data_dict (Some keys) data_dict = Raise e -> In e (data_dict_errors keys).
Proof.
  unfold validate_data_dict, data_dict_errors.
  destruct (is_None data_dict).
  - intros H. injection H as <-. now left.
  - intros H. apply check_each_raise in H. destruct H as (entry & Hin & H).
    right. cbn [fst snd] in H.
    destruct (snd entry); [|discriminate].
    destruct (py_contains data_dict (fst entry)) as [present|e'] eqn:Hc; simpl in H.
    + assert (Hkey : forall x,
                In x [ KeyError ("Missing mandatory key: " ++ fst entry);
                       KeyError (fst entry);
                       KeyError ("Invalid value in " ++ fst entry ++ " parameter") ] ->
                In x (TypeError :: flat_map (fun entry =>
                        [ KeyError ("Missing mandatory key: " ++ fst entry);
                          KeyError (fst entry);
                          KeyError ("Invalid value in " ++ fst entry ++ " parameter") ]) keys)).
      { intros x Hx. right. apply in_flat_map. exists entry. now split. }
      destruct present; simpl in H.
      * unfold py_getitem in H.
        destruct data_dict as [| | | | |d];
          try (injection H as <-; now left).
        destruct (dict_get d (fst entry)) as [value|]; simpl in H.
        -- destruct (is_None value); [|discriminate].
           injection H as <-. apply Hkey. simpl. auto.
        -- injection H as <-. apply Hkey. simpl. auto.
      * injection H as <-. apply Hkey. simpl. auto.
    + injection H as <-. left.
      destruct data_dict; simpl in Hc; congruence.
Qed.

Lemma validate_language_code2_errors (language_code : pyval) (e : pyexc) :
  validate_language_code2 language_code = Raise e -> In e language_errors.
Proof.
  unfold validate_language_code2, language_errors.
  destruct language_code; simpl; intros H; try (injection H as <-; simpl; tauto).
  destruct (2 <? py_len_str s)%nat; [injection H as <-; simpl; tauto|].
  destruct (_ && _); [injection H as <-; simpl; tauto | discriminate].
Qed.

Lemma validate_address_raises (data_dict : pyval) :
  exists e, validate_address_value_in_create_payment data_dict = Raise e.
Proof.
  unfold validate_address_value_in_create_payment.
  destruct (is_None data_dict); [eauto|].
  destruct (validate_data_dict (Some address_keySet) data_dict); simpl; eauto.
Qed.

Lemma validate_address_errors (data_dict : pyval) (e : pyexc) :
  validate_address_value_in_create_payment data_dict = Raise e -> In e address_errors.
Proof.
  unfold validate_address_value_in_create_payment, address_errors.
  destruct (is_None data_dict).
  - intros H. injection H as <-. now left.
  - destruct (validate_data_dict (Some address_keySet) data_dict) eqn:Hv; simpl.
    + intros H. injection H as <-. right. now left.
    + intros H. injection H as <-. right. right.
      now apply validate_data_dict_errors in Hv.
Qed.

(** ** The pipeline of [create_payment] *)

Section Pipeline.

Variable hmac_sha256_hexdigest : string -> string -> string.
Variable net : transport.

(** In test mode a missing payload stands for the canned one. *)
Lemma create_payment_default_input (self : CheckoutCli) (request_id stamp : pyval) (w : world) :
  py_eq_int (_is_test_mode self) 1 = true ->
  create_payment hmac_sha256_hexdigest net self request_id PNone stamp w =
  create_payment hmac_sha256_hexdigest net self request_id
    get_test_req_create_payment_data stamp w.
Proof.
  intros Ht. unfold create_payment. rewrite Ht. reflexivity.
Qed.

Lemma address_stage_raises (input_data_dict : pyval) (key : string) :
  exists e,
    (a <- py_getitem input_data_dict key ;; validate_address_value_in_create_payment a)
      = Raise e /\
    In e (KeyError key :: TypeError :: address_errors).
Proof.
  destruct (py_getitem input_data_dict key) as [a|e] eqn:Hg; simpl.
  - destruct (validate_address_raises a) as [e He]. exists e. split; [exact He|].
    right. right. now apply validate_address_errors in He.
  - exists e. split; [reflexivity|].
    unfold py_getitem in Hg.
    destruct input_data_dict as [| | | | |d]; try (injection Hg as <-; simpl; tauto).
    destruct (dict_get d key); [discriminate|]. injection Hg as <-. now left.
Qed.

(** A payment with the key [self] cannot be passed on as keyword
    arguments. *)
Lemma create_payment_self_key (self : CheckoutCli) (request_id stamp : pyval)
    (d : dict) (w : world) (v : pyval) :
  is_None request_id = false ->
  dict_get d "self" = Some v ->
  create_payment hmac_sha256_hexdigest net self request_id (PDict d) stamp w
  = (Raise TypeError, w).
Proof.
  intros Hrid Hself. unfold create_payment. rewrite Hrid.
  destruct (py_eq_int _ 1); cbn [is_None]; rewrite io_bind_ret;
    rewrite io_bind_lift; cbn [unpack_kwargs];
    rewrite (dict_get_some_key _ _ _ Hself); reflexivity.
Qed.

(** The first steps of a call on a dictionary [d] without that key, up to
    the presence check. *)
Lemma create_payment_to_presence (self : CheckoutCli) (request_id stamp : pyval)
    (d : dict) (w : world) (e : pyexc) :
  is_None request_id = false ->
  dict_get d "self" = None ->
  validate_create_payment_input d = Raise e ->
  create_payment hmac_sha256_hexdigest net self request_id (PDict d) stamp w = (Raise e, w).
Proof.
  intros Hrid Hself Hp. unfold create_payment. rewrite Hrid.
  destruct (py_eq_int _ 1); cbn [is_None]; rewrite io_bind_ret;
    rewrite io_bind_lift; cbn [unpack_kwargs]; rewrite (dict_get_none_key _ _ Hself);
    cbn [bind]; rewrite Hp; reflexivity.
Qed.

(** ... and up to the currency check, which a currency other than the
    string EUR does not pass. *)
Lemma create_payment_to_currency (self : CheckoutCli) (request_id stamp : pyval)
    (d : dict) (w : world) (currency : pyval) :
  is_None request_id = false ->
  dict_get d "self" = None ->
  validate_create_payment_input d = Ok tt ->
  dict_get d "currency" = Some currency ->
  py_eq_str currency "EUR" = false ->
  create_payment hmac_sha256_hexdigest net self request_id (PDict d) stamp w
  = (Raise (ValueError "Invalid currency value. Support only EUR."), w).
Proof.
  intros Hrid Hself Hp Hc He. unfold create_payment. rewrite Hrid.
  destruct (py_eq_int _ 1); cbn [is_None]; rewrite io_bind_ret;
    rewrite io_bind_lift; cbn [unpack_kwargs]; rewrite (dict_get_none_key _ _ Hself);
    cbn [bind]; rewrite Hp;
    rewrite io_bind_lift; cbn [py_getitem]; rewrite Hc, He; reflexivity.
Qed.

Lemma create_payment_no_currency (self : CheckoutCli) (request_id stamp : pyval)
    (d : dict) (w : world) :
  is_None request_id = false ->
  dict_get d "self" = None ->
  validate_create_payment_input d = Ok tt ->
  dict_get d "currency" = None ->
  create_payment hmac_sha256_hexdigest net self request_id (PDict d) stamp w
  = (Raise (KeyError "currency"), w).
Proof.
  intros Hrid Hself Hp Hc. unfold create_payment. rewrite Hrid.
  destruct (py_eq_int _ 1); cbn [is_None]; rewrite io_bind_ret;
    rewrite io_bind_lift; cbn [unpack_kwargs]; rewrite (dict_get_none_key _ _ Hself);
    cbn [bind]; rewrite Hp;
    rewrite io_bind_lift; cbn [py_getitem]; rewrite Hc; reflexivity.
Qed.


(** Once the presence and currency checks are passed, the call stops in the
    language, customer or invoicing-address check. *)
Lemma create_payment_late_stages (self : CheckoutCli) (request_id stamp : pyval)
    (d : dict) (w : world) :
  is_None request_id = false ->
  dict_get d "self" = None ->
  validate_create_payment_input d = Ok tt ->
  dict_get d "currency" = Some (PStr "EUR") ->
  exists e,
    create_payment hmac_sha256_hexdigest net self request_id (PDict d) stamp w = (Raise e, w)
    /\ In e late_errors.
Proof.
  intros Hrid Hself Hpresent Hcur. unfold create_payment. rewrite Hrid.
  assert (Hsel : forall k : pyval -> io response,
             io_bind (if py_eq_int (_is_test_mode self) 1
                      then if is_None (PDict d) then ret get_test_req_create_payment_data
                           else ret (PDict d)
                      else if is_None (PDict d)
                           then throw (KeyError "Missing input request parameters")
                           else ret (PDict d)) k w = k (PDict d) w).
  { intros k. destruct (py_eq_int _ 1); reflexivity. }
  rewrite Hsel. rewrite io_bind_lift. cbn [unpack_kwargs].
  rewrite (dict_get_none_key _ _ Hself). cbn [bind]. rewrite Hpresent.
  rewrite io_bind_lift. cbn [py_getitem]. rewrite Hcur.
  cbn [py_eq_str String.eqb Ascii.eqb Bool.eqb negb].
  rewrite io_bind_lift.
  unfold late_errors.
  destruct (dict_get d "language") as [language|];
    [|eexists; split; [reflexivity|]; apply in_or_app; right; simpl; tauto].
  rewrite io_bind_lift.
  destruct (validate_language_code2 language) as [[]|e] eqn:Hl;
    [|eexists; split; [reflexivity|]; apply in_or_app; left;
      now apply validate_language_code2_errors in Hl].
  rewrite io_bind_lift. cbn [bind].
  destruct (py_upper_call language) as [[]|e] eqn:Hu;
    [|eexists; split; [reflexivity|]; apply in_or_app; right;
      destruct language; simpl in Hu; try discriminate; injection Hu as <-; simpl; tauto].
  rewrite io_bind_lift.
  destruct (dict_get d "customer") as [customer_dict|];
    [|eexists; split; [reflexivity|]; apply in_or_app; right; simpl; tauto].
  destruct (negb (type_is_dict customer_dict));
    [eexists; split; [reflexivity|]; apply in_or_app; right; simpl; tauto|].
  rewrite io_bind_lift.
  destruct (address_stage_raises (PDict d) "invoicingAddress") as (e & He & Hin).
  cbn [py_getitem] in He. rewrite He. exists e. split; [reflexivity|].
  apply in_or_app; right. simpl in Hin |- *. tauto.
Qed.

(** [create_payment] raises whatever it is given, and leaves the world as it
    found it. *)
Lemma create_payment_raises (self : CheckoutCli)
    (request_id input_data_dict stamp : pyval) (w : world) :
  exists e,
    create_payment hmac_sha256_hexdigest net self request_id input_data_dict stamp w
      = (Raise e, w)
    /\ In e (early_errors ++ late_errors).
Proof.
  assert (Hearly : forall e, In e presence_errors \/
                             In e [ KeyError "currency";
                                    ValueError "Invalid currency value. Support only EUR." ] ->
                             In e (early_errors ++ late_errors)).
  { intros e He. apply in_or_app. left. unfold early_errors.
    apply in_or_app. right. apply in_or_app. exact He. }
  assert (Hdict : forall d, is_None request_id = false ->
            exists e,
              create_payment hmac_sha256_hexdigest net self request_id (PDict d) stamp w
                = (Raise e, w)
              /\ In e (early_errors ++ late_errors)).
  { intros d Hrid.
    destruct (dict_get d "self") as [v|] eqn:Hself.
    { rewrite (create_payment_self_key self request_id stamp d w v) by assumption.
      eexists. split; [reflexivity|]. simpl. tauto. }
    destruct (validate_create_payment_input d) as [[]|e] eqn:Hp.
    - destruct (dict_get d "currency") as [currency|] eqn:Hc.
      + destruct (py_eq_str currency "EUR") eqn:He.
        * apply py_eq_str_true in He. subst currency.
          destruct (create_payment_late_stages self request_id stamp d w Hrid Hself Hp Hc)
            as (e & -> & Hin).
          exists e. split; [reflexivity|]. apply in_or_app. now right.
        * rewrite (create_payment_to_currency self request_id stamp d w currency)
            by assumption.
          eexists. split; [reflexivity|]. apply Hearly. right. simpl. tauto.
      + rewrite create_payment_no_currency by assumption.
        eexists. split; [reflexivity|]. apply Hearly. right. simpl. tauto.
    - rewrite (create_payment_to_presence self request_id stamp d w e) by assumption.
      exists e. split; [reflexivity|]. apply Hearly. left.
      now apply validate_create_payment_input_errors in Hp. }
  destruct (is_None request_id) eqn:Hrid.
  { eexists. split.
    - unfold create_payment. rewrite Hrid. reflexivity.
    - simpl. tauto. }
  destruct input_data_dict as [|b|z|s|l|d]; auto.
  - destruct (py_eq_int (_is_test_mode self) 1) eqn:Ht.
    + rewrite create_payment_default_input by exact Ht. now apply Hdict.
    + eexists. split.
      * unfold create_payment. rewrite Hrid, Ht. reflexivity.
      * simpl. tauto.
  - eexists. split.
    + unfold create_payment. rewrite Hrid. destruct (py_eq_int _ 1); reflexivity.
    + simpl. tauto.
  - eexists. split.
    + unfold create_payment. rewrite Hrid. destruct (py_eq_int _ 1); reflexivity.
    + simpl. tauto.
  - eexists. split.
    + unfold create_payment. rewrite Hrid. destruct (py_eq_int _ 1); reflexivity.
    + simpl. tauto.
  - eexists. split.
    + unfold create_payment. rewrite Hrid. destruct (py_eq_int _ 1); reflexivity.
    + simpl. tauto.
Qed.

End Pipeline.

(** * The claims *)

(** Claim C1 (signing).  The claim has [get_hash_sha256] return the HMAC-SHA256
    digest of the canonical message for every non-empty header set.  The
    method does not get that far: it keeps the sorted list of the keys under
    the name [header_dict] and then subscripts that list with a key, so a
    header set with at least one key raises [TypeError], whatever the body;
    with no key at all it reaches the name [sys], which the module never
    imports.  No call returns a digest. *)
Theorem get_hash_sha256_never_returns
    (hmac_sha256_hexdigest : string -> string -> string) (self : CheckoutCli) :
  (forall (k : string) (v : pyval) (rest : dict) (body : option pyval),
      get_hash_sha256 hmac_sha256_hexdigest self
        {| kw_headers := Some ((k, v) :: rest); kw_body := body |} = Raise TypeError)
  /\ (forall body : option pyval,
      get_hash_sha256 hmac_sha256_hexdigest self
        {| kw_headers := Some []; kw_body := body |} = Raise (NameError "sys"))
  /\ (forall kwargs : hmac_kwargs,
      is_ok (get_hash_sha256 hmac_sha256_hexdigest self kwargs) = false).
Proof.
  assert (Hcons : forall k v rest body,
            get_hash_sha256 hmac_sha256_hexdigest self
              {| kw_headers := Some ((k, v) :: rest); kw_body := body |} = Raise TypeError).
  { intros k v rest body. unfold get_hash_sha256, kwargs_len. simpl kw_headers.
    cbn [Nat.add Nat.eqb bind dict_keys map fst].
    destruct (sorted_cons k (map fst rest)) as (h & t & Hs). rewrite Hs.
    destruct (sorted_cons h t) as (h' & t' & Hs'). rewrite Hs'.
    reflexivity. }
  assert (Hnil : forall body,
            get_hash_sha256 hmac_sha256_hexdigest self
              {| kw_headers := Some []; kw_body := body |} = Raise (NameError "sys")).
  { intros body. reflexivity. }
  repeat split; auto.
  intros [[[|[k v] rest]|] body].
  - rewrite Hnil. reflexivity.
  - rewrite Hcons. reflexivity.
  - unfold get_hash_sha256, kwargs_len. simpl. destruct body; reflexivity.
Qed.

(** Claim C2 (sending the signed headers).  The claim has [create_payment]
    send the body with the signed header set.  No call of [create_payment]
    sends anything: every call raises and leaves the wire as it was.  With
    the test client and the canned payment the error is the [NameError] of
    the address check. *)
Theorem create_payment_never_sends
    (hmac_sha256_hexdigest : string -> string -> string) (net : transport)
    (self : CheckoutCli) (request_id input_data_dict time_stamp_string : pyval) (w : world) :
  (exists e, create_payment hmac_sha256_hexdigest net self request_id input_data_dict
               time_stamp_string w = (Raise e, w))
  /\ create_payment hmac_sha256_hexdigest net test_client (PStr "req-1") PNone PNone w
     = (Raise (NameError "value"), w).
Proof.
  split.
  - destruct (create_payment_raises hmac_sha256_hexdigest net self request_id
                input_data_dict time_stamp_string w) as (e & He & _).
    eauto.
  - reflexivity.
Qed.

(** Claim C3, as the code has it: empty credentials are accepted in live
    mode. *)
Lemma init_live_accepts_empty_credentials :
  __init__ (PInt 0) (PStr EmptyString) (PStr EmptyString) =
  Ok {| _is_test_mode := PInt 0;
        _base_api_end_point := "https://api.checkout.fi";
        _merchant_id := PStr EmptyString;
        _secret_key := EmptyString |}.
Proof. reflexivity. Qed.

(** Claim C3 (credentials), amended.  In live mode (the mode flag is not 1)
    the constructor fails with [KeyError] exactly when the merchant id or the
    secret key is [None].  With a merchant id other than [None] and a secret
    key that is a string (the empty one included), a boolean or an integer of
    at most 640 digits, it succeeds and keeps the merchant id as it is and
    the secret key through [str].  In test mode it succeeds and uses the
    fixed account 375917 and secret SAIPPUAKAUPPIAS whatever the caller
    supplied. *)
Theorem init_credentials (mode merchant_id secret_key : pyval)
    (Hlive : py_eq_int mode 1 = false) :
  ((merchant_id = PNone \/ secret_key = PNone) <->
   exists msg, __init__ mode merchant_id secret_key = Raise (KeyError msg))
  /\ (merchant_id <> PNone -> str_exact secret_key ->
      __init__ mode merchant_id secret_key =
      Ok {| _is_test_mode := mode;
            _base_api_end_point := "https://api.checkout.fi";
            _merchant_id := merchant_id;
            _secret_key := py_str secret_key |})
  /\ (forall test m s : pyval,
      py_eq_int test 1 = true ->
      __init__ test m s =
      Ok {| _is_test_mode := test;
            _base_api_end_point := "https://api.checkout.fi";
            _merchant_id := PStr "375917";
            _secret_key := "SAIPPUAKAUPPIAS" |}).
Proof.
  unfold __init__. rewrite Hlive. repeat split.
  - intros [-> | ->]; simpl.
    + eauto.
    + destruct (is_None merchant_id); eauto.
  - intros [msg H].
    destruct (is_None merchant_id) eqn:Hm; [left; now apply is_None_true|].
    destruct (is_None secret_key) eqn:Hs; [right; now apply is_None_true|].
    discriminate.
  - intros Hm Hs. apply is_None_false in Hm. rewrite Hm.
    destruct secret_key; simpl in Hs; try contradiction; reflexivity.
  - intros test m s Ht. now rewrite Ht.
Qed.

(** A live client with a merchant id and an integer secret. *)
Lemma init_credentials_witness :
  py_eq_int (PInt 0) 1 = false
  /\ __init__ (PInt 0) (PStr "375917") (PInt 42) =
     Ok {| _is_test_mode := PInt 0;
           _base_api_end_point := "https://api.checkout.fi";
           _merchant_id := PStr "375917";
           _secret_key := "42" |}.
Proof.
  split; [reflexivity|].
  apply (proj1 (proj2 (init_credentials (PInt 0) (PStr "375917") (PInt 42) eq_refl)));
    [discriminate | vm_compute; reflexivity].
Defined.

(** Claim C4 (URLs).  [get_post_url] maps Payments to base/payments,
    PaymentDetails to base/payments/id, Refund to base/payments/id/refund and
    ListProviders to base/merchants/payment-providers; Payments and
    ListProviders do so whatever the transaction id is; and the call raises
    the [ValueError] of a missing transaction id exactly when the operation
    is PaymentDetails or Refund and the id is [None] or the empty string. *)
Theorem get_post_url_endpoints (self : CheckoutCli) :
  (forall tx, get_post_url self (PStr "Payments") tx =
              Ok (PStr (_base_api_end_point self ++ "/payments")))
  /\ (forall c t, get_post_url self (PStr "PaymentDetails") (PStr (String c t)) =
                  Ok (PStr (_base_api_end_point self ++ "/payments/" ++ String c t)))
  /\ (forall c t, get_post_url self (PStr "Refund") (PStr (String c t)) =
                  Ok (PStr (_base_api_end_point self ++ "/payments/" ++ String c t ++ "/refund")))
  /\ (forall tx, get_post_url self (PStr "ListProviders") tx =
                 Ok (PStr (_base_api_end_point self ++ "/merchants/payment-providers")))
  /\ (forall api_type tx,
        get_post_url self api_type tx = Raise (ValueError "Undefined transaction id") <->
        (api_type = PStr "PaymentDetails" \/ api_type = PStr "Refund") /\
        (tx = PNone \/ tx = PStr EmptyString)).
Proof.
  repeat apply conj.
  - reflexivity.
  - intros c t. unfold get_post_url; simpl.
    now rewrite append_assoc.
  - intros c t. unfold get_post_url; simpl.
    now rewrite !append_assoc.
  - reflexivity.
  - intros api_type tx. split.
    + intros H. unfold get_post_url, validate_trans_id_data in H.
      destruct (py_eq_str api_type "Payments") eqn:E1; [discriminate|].
      destruct (is_None tx || py_eq_str tx EmptyString) eqn:Et.
      * apply orb_true_iff in Et.
        rewrite is_None_true, py_eq_str_true in Et. split; [|exact Et].
        destruct (py_eq_str api_type "PaymentDetails") eqn:E2;
          [left; now apply py_eq_str_true|].
        destruct (py_eq_str api_type "Refund") eqn:E3;
          [right; now apply py_eq_str_true|].
        destruct (py_eq_str api_type "ListProviders"); discriminate.
      * simpl in H.
        destruct (py_eq_str api_type "PaymentDetails");
          [destruct tx; discriminate|].
        destruct (py_eq_str api_type "Refund");
          [destruct tx; discriminate|].
        destruct (py_eq_str api_type "ListProviders"); discriminate.
    + intros [[-> | ->] [-> | ->]]; reflexivity.
Qed.

(** Claim C5 (customer email).  The claim has a payment whose customer lacks
    an email rejected with the missing-key error for email.
    [create_payment] never raises that error, whatever it is given: it
    checks that the customer is a dictionary and never calls
    [validate_customer_key_value_in_create_payment].  The canned payment
    with a customer without email runs on into the address check, while the
    unused helper, on that same customer, raises the error of the claim. *)
Theorem customer_fields_not_checked
    (hmac_sha256_hexdigest : string -> string -> string) (net : transport)
    (self : CheckoutCli) (request_id input_data_dict time_stamp_string : pyval) (w : world) :
  fst (create_payment hmac_sha256_hexdigest net self request_id input_data_dict
         time_stamp_string w) <> Raise (KeyError "Missing mandatory key: email")
  /\ create_payment hmac_sha256_hexdigest net test_client (PStr "req-1")
       (PDict (payment_with (PStr "EUR") no_email_customer)) PNone w
     = (Raise (NameError "value"), w)
  /\ validate_customer_key_value_in_create_payment no_email_customer
     = Raise (KeyError "Missing mandatory key: email").
Proof.
  repeat apply conj.
  - destruct (create_payment_raises hmac_sha256_hexdigest net self request_id
                input_data_dict time_stamp_string w) as (e & -> & Hin).
    cbn [fst]. intros Heq. injection Heq as ->. not_among Hin.
  - reflexivity.
  - reflexivity.
Qed.

(** Claim C6 (items).  The claim has every element of [items] checked on its
    own.  [create_payment] hands the whole list to
    [validate_item_data_in_create_payment], which takes one item: on a list
    of item dictionaries, however well formed, the key test fails at once
    with the missing-key error for unitPrice.  On one item the helper does
    what the claim says: the canned item passes, and a unit price that is a
    string is refused as not an integer. *)
Theorem items_list_checked_as_one_record :
  (forall items : list dict,
      validate_item_data_in_create_payment (PList (map PDict items)) =
      Raise (KeyError "Missing mandatory key: unitPrice"))
  /\ validate_item_data_in_create_payment test_item = Ok tt
  /\ (forall price : string,
      validate_item_data_in_create_payment
        (PDict [ ("unitPrice", PStr price); ("units", PInt 1); ("vatPercentage", PInt 24);
                 ("productCode", PStr "#927502759"); ("deliveryDate", PStr "2018-03-07") ]) =
      Raise (ValueError "Expect int value in unitPrice parameter")).
Proof.
  repeat apply conj.
  - intros items.
    unfold validate_item_data_in_create_payment, validate_data_dict, item_keySet, check_each.
    cbn [is_None for_each fst snd].
    rewrite no_key_in_list_of_dicts. reflexivity.
  - reflexivity.
  - reflexivity.
Qed.

(** Claim C7 (addresses).  The claim has a country code longer than two
    characters refused as an invalid country code, and a valid one
    upper-cased in what validation returns.  An address with its four
    mandatory keys, whatever its country, stops at the name [value], which
    the method never binds: it raises [NameError] before it looks at the
    country.  No address passes the check. *)
Theorem address_check_stops_at_unbound_name :
  (forall (street postal city country : string) (rest : dict),
      validate_address_value_in_create_payment
        (PDict (("streetAddress", PStr street) :: ("postalCode", PStr postal) ::
                ("city", PStr city) :: ("country", PStr country) :: rest)) =
      Raise (NameError "value"))
  /\ (forall data_dict : pyval,
      is_ok (validate_address_value_in_create_payment data_dict) = false).
Proof.
  split.
  - reflexivity.
  - intros d. destruct (validate_address_raises d) as [e ->]. reflexivity.
Qed.

(** Claim C8, as the code has it: answers with status 400 and with status
    500 and the same body raise one and the same exception, which holds the
    body and no status code. *)
Lemma send_request_error_drops_status :
  fst (send_request (answer 400 bad_request_body) (PStr "POST")
         (PStr "https://api.checkout.fi/payments") PNone [] w0)
    = Raise (PyException bad_request_body)
  /\ fst (send_request (answer 500 bad_request_body) (PStr "POST")
            (PStr "https://api.checkout.fi/payments") PNone [] w0)
    = Raise (PyException bad_request_body).
Proof. split; reflexivity. Qed.

(** Claim C8 (responses), amended.  Given a URL, [send_request] puts exactly
    one request on the wire, to that URL and with the headers it was given.
    When the remote side answers it, an answer with status 200 or 201 is
    returned as it is, and any other answer raises an exception that carries
    the raw body of the answer (and not its status code); an error of the
    transport is passed on.  Nothing is sent a second time. *)
Theorem send_request_outcome (net : transport)
    (send_method _api_post_url req_input : pyval) (headers_dict : dict) (w : world)
    (Hurl : is_None _api_post_url || py_eq_str _api_post_url EmptyString = false) :
  exists rq : request,
    snd (send_request net send_method _api_post_url req_input headers_dict w)
      = {| now := now w; wire := wire w ++ [rq] |}
    /\ url rq = _api_post_url
    /\ headers rq = headers_dict
    /\ (forall res : response,
          net (wire w) rq = Ok res ->
          (status_code res = 200%Z \/ status_code res = 201%Z ->
           fst (send_request net send_method _api_post_url req_input headers_dict w)
             = Ok res)
          /\ (status_code res <> 200%Z -> status_code res <> 201%Z ->
              fst (send_request net send_method _api_post_url req_input headers_dict w)
                = Raise (PyException (content res))))
    /\ (forall e : pyexc,
          net (wire w) rq = Raise e ->
          fst (send_request net send_method _api_post_url req_input headers_dict w)
            = Raise e).
Proof.
  unfold send_request. rewrite Hurl.
  match goal with
  | |- context [io_bind ?m _ _] =>
      assert (Hm : exists rq, m = requests_call net rq /\ url rq = _api_post_url
                              /\ headers rq = headers_dict)
        by (destruct (py_eq_str send_method "POST"), (is_None req_input);
            eexists; (split; [reflexivity|]); split; reflexivity)
  end.
  destruct Hm as (rq & -> & Hu & Hh). exists rq.
  unfold io_bind, requests_call.
  split; [|split; [exact Hu|split; [exact Hh|split]]].
  - destruct (net (wire w) rq) as [res|e]; [|reflexivity].
    destruct (negb _ && negb _); reflexivity.
  - intros res Hres. rewrite Hres. split.
    + intros [-> | ->]; reflexivity.
    + intros H200 H201.
      apply Z.eqb_neq in H200, H201. now rewrite H200, H201.
  - intros e He. now rewrite He.
Qed.

(** A POST to the payments URL that is answered with status 400. *)
Lemma send_request_outcome_witness :
  is_None (PStr "https://api.checkout.fi/payments")
    || py_eq_str (PStr "https://api.checkout.fi/payments") EmptyString = false
  /\ exists rq : request,
       snd (send_request (answer 400 bad_request_body) (PStr "POST")
              (PStr "https://api.checkout.fi/payments") PNone [] w0)
         = {| now := now w0; wire := [rq] |}
       /\ url rq = PStr "https://api.checkout.fi/payments"
       /\ fst (send_request (answer 400 bad_request_body) (PStr "POST")
                 (PStr "https://api.checkout.fi/payments") PNone [] w0)
          = Raise (PyException bad_request_body).
Proof.
  split; [reflexivity|].
  destruct (send_request_outcome (answer 400 bad_request_body) (PStr "POST")
              (PStr "https://api.checkout.fi/payments") PNone [] w0 eq_refl)
    as (rq & Hw & Hu & _ & Hres & _).
  exists rq. split; [exact Hw|]. split; [exact Hu|].
  apply (Hres {| status_code := 400; content := bad_request_body |}).
  - reflexivity.
  - discriminate.
  - discriminate.
Defined.



(** Claim C10 (caller's timestamp).  A call of [get_req_header_dict] with a
    timestamp that is not [None] raises, whatever else it is given; when the
    operation and its transaction id are accepted, the error is the
    [UnboundLocalError] of the local [time_stamp], which is assigned only
    when no timestamp is given.  So whenever the call returns a header
    dictionary, no timestamp was given and the checkout-timestamp header is
    the formatted local time of the clock. *)
Theorem header_timestamp_never_from_caller (self : CheckoutCli)
    (api_type method request_id trans_id time_stamp_string : pyval) (w : world)
    (Hgiven : time_stamp_string <> PNone) :
  (exists e, get_req_header_dict self api_type method request_id trans_id
               time_stamp_string w = (Raise e, w))
  /\ (existsb (py_eq_str api_type) _accepted_api_type = true ->
      (py_eq_str api_type "PaymentDetails" || py_eq_str api_type "Refund")
        && is_None trans_id = false ->
      get_req_header_dict self api_type method request_id trans_id
        time_stamp_string w = (Raise (UnboundLocalError "time_stamp"), w))
  /\ (forall (stamp : pyval) (header_dict : dict) (w' : world),
      get_req_header_dict self api_type method request_id trans_id stamp w
        = (Ok header_dict, w') ->
      stamp = PNone /\
      dict_get header_dict "checkout-timestamp" = Some (PStr (strftime (now w)))).
Proof.
  assert (Hn : is_None time_stamp_string = false) by now apply is_None_false.
  unfold get_req_header_dict.
  repeat apply conj.
  - destruct (negb _); [unfold throw; eauto|].
    destruct (_ && _); [unfold throw; eauto|].
    rewrite Hn. unfold io_bind, ret, lift; simpl. eauto.
  - intros Ha Ht. rewrite Ha, Ht, Hn. reflexivity.
  - intros stamp hd w'.
    destruct (negb _); [discriminate|].
    destruct (_ && _); [discriminate|].
    destruct stamp; try discriminate.
    unfold io_bind, ret, lift, datetime_now; simpl.
    destruct (_ || _); intros H; injection H as <- <-; split; reflexivity.
Qed.

(** The headers of a payment, asked for with a timestamp of the caller's. *)
Lemma header_timestamp_never_from_caller_witness :
  PStr "2018-03-07T093005" <> PNone
  /\ get_req_header_dict test_client (PStr "Payments") (PStr "POST") (PStr "req-1") PNone
       (PStr "2018-03-07T093005") w0 = (Raise (UnboundLocalError "time_stamp"), w0).
Proof.
  split; [discriminate|].
  apply (proj1 (proj2 (header_timestamp_never_from_caller test_client (PStr "Payments")
           (PStr "POST") (PStr "req-1") PNone (PStr "2018-03-07T093005") w0
           ltac:(discriminate)))); reflexivity.
Defined.

(** * Further properties *)

(** ** Loops that only check *)

Lemma check_each_ok {A : Type} (l : list A) (body : A -> result unit) :
  check_each l body = Ok tt <-> forall x, In x l -> body x = Ok tt.
Proof.
  unfold check_each. induction l as [|x l IH]; simpl.
  - split; [intros _ y [] | reflexivity].
  - destruct (body x) as [[]|e] eqn:Hx; simpl.
    + rewrite IH. split.
      * intros H y [<- | Hy]; auto.
      * intros H y Hy. apply H. now right.
    + split; [discriminate|]. intros H. specialize (H x (or_introl eq_refl)). congruence.
Qed.

Lemma check_each_first {A : Type} (pre post : list A) (x : A) (body : A -> result unit)
    (e : pyexc) :
  (forall y, In y pre -> body y = Ok tt) ->
  body x = Raise e ->
  check_each (pre ++ x :: post) body = Raise e.
Proof.
  unfold check_each. intros Hpre Hx. induction pre as [|y pre IH]; simpl.
  - now rewrite Hx.
  - rewrite (Hpre y (or_introl eq_refl)). simpl. apply IH.
    intros z Hz. apply Hpre. now right.
Qed.

(** ** One key of [validate_data_dict] *)

Lemma validate_data_dict_loop (keys : list (string * bool)) (data_dict : pyval) :
  is_None data_dict = false ->
  validate_data_dict (Some keys) data_dict = check_each keys (check_entry data_dict).
Proof. intros H. unfold validate_data_dict. now rewrite H. Qed.

Lemma check_entry_mandatory_ok (data_dict : pyval) (key : string) :
  check_entry data_dict (key, true) = Ok tt <->
  exists d x, data_dict = PDict d /\ dict_get d key = Some x /\ x <> PNone.
Proof.
  unfold check_entry; cbn [fst snd]. split.
  - destruct data_dict as [| | |s|l|d]; simpl; try discriminate.
    + destruct (str_contains key s); discriminate.
    + destruct (existsb _ l); discriminate.
    + destruct (existsb (String.eqb key) (dict_keys d)) eqn:Hk; simpl; [|discriminate].
      destruct (dict_get d key) as [x|] eqn:Hg; simpl; [|discriminate].
      destruct (is_None x) eqn:Hx; [discriminate|].
      intros _. exists d, x. repeat split; auto. now apply is_None_false.
  - intros (d & x & -> & Hg & Hx). simpl.
    rewrite (dict_get_some_key _ _ _ Hg), Hg. simpl.
    apply is_None_false in Hx. now rewrite Hx.
Qed.

Lemma validate_data_dict_ok (keys : list (string * bool)) (data_dict : pyval) :
  validate_data_dict (Some keys) data_dict = Ok tt <->
  data_dict <> PNone /\
  forall key, In (key, true) keys ->
              exists d x, data_dict = PDict d /\ dict_get d key = Some x /\ x <> PNone.
Proof.
  destruct (is_None data_dict) eqn:Hn.
  - split.
    + unfold validate_data_dict. rewrite Hn. discriminate.
    + intros [H _]. apply is_None_true in Hn. contradiction.
  - rewrite validate_data_dict_loop by exact Hn. rewrite check_each_ok.
    split.
    + intros H. split; [now apply is_None_false|].
      intros key Hk. apply check_entry_mandatory_ok. now apply H.
    + intros [_ H] [key [|]] Hin.
      * apply check_entry_mandatory_ok. now apply H.
      * reflexivity.
Qed.

Lemma validate_data_dict_first (pre post : list (string * bool)) (key : string)
    (d : dict) :
  (forall k, In (k, true) pre -> exists x, dict_get d k = Some x /\ x <> PNone) ->
  (dict_get d key = None ->
   validate_data_dict (Some (pre ++ (key, true) :: post)%list) (PDict d)
   = Raise (KeyError ("Missing mandatory key: " ++ key)))
  /\ (dict_get d key = Some PNone ->
      validate_data_dict (Some (pre ++ (key, true) :: post)%list) (PDict d)
      = Raise (KeyError ("Invalid value in " ++ key ++ " parameter"))).
Proof.
  intros Hpre.
  assert (Hok : forall y, In y pre -> check_entry (PDict d) y = Ok tt).
  { intros [k [|]] Hy; [|reflexivity].
    apply check_entry_mandatory_ok. destruct (Hpre k Hy) as (x & Hg & Hx).
    exists d, x. auto. }
  split; intros Hg; rewrite validate_data_dict_loop by reflexivity;
    apply check_each_first; auto; unfold check_entry; cbn [fst snd py_contains].
  - rewrite (dict_get_none_key _ _ Hg). reflexivity.
  - rewrite (dict_get_some_key _ _ _ Hg). simpl. rewrite Hg. reflexivity.
Qed.

(** Property X1 (language codes).  [validate_language_code2] accepts exactly
    the three strings FI, SV and EN, in upper case; and a string is refused
    for its length exactly when it has more than two characters. *)
Theorem validate_language_code2_accepts (language_code : pyval) :
  (validate_language_code2 language_code = Ok tt <->
   language_code = PStr "FI" \/ language_code = PStr "SV" \/ language_code = PStr "EN")
  /\ (forall s : string,
        validate_language_code2 (PStr s) =
        Raise (ValueError
                 "Invalid language code value length. Expected 2 letters of language code")
        <-> (2 < py_len_str s)%nat).
Proof.
  split.
  - split.
    + unfold validate_language_code2.
      destruct language_code as [| | |s| |]; simpl; try discriminate.
      destruct (2 <? py_len_str s)%nat; [discriminate|].
      destruct (String.eqb s "FI") eqn:E1;
        [apply String.eqb_eq in E1; subst; auto|].
      destruct (String.eqb s "SV") eqn:E2;
        [apply String.eqb_eq in E2; subst; auto|].
      destruct (String.eqb s "EN") eqn:E3;
        [apply String.eqb_eq in E3; subst; auto|].
      discriminate.
    + intros [-> | [-> | ->]]; reflexivity.
  - intros s. unfold validate_language_code2. simpl.
    destruct (2 <? py_len_str s)%nat eqn:E.
    + apply Nat.ltb_lt in E. tauto.
    + apply Nat.ltb_ge in E. split; [|lia].
      destruct (_ && _); discriminate.
Qed.

(** Property X2 (top-level keys).  [validate_create_payment_input] accepts a
    payment exactly when each of the eleven keys of
    [get_create_payment_keys] is present with a value other than [None];
    keys beyond those are not looked at. *)
Theorem validate_create_payment_input_accepts (kwargs : dict) :
  validate_create_payment_input kwargs = Ok tt <->
  forall key, In key get_create_payment_keys ->
              exists v, dict_get kwargs key = Some v /\ v <> PNone.
Proof.
  unfold validate_create_payment_input.
  assert (Hbody : forall key,
            (if is_None match dict_get kwargs key with Some v => v | None => PNone end
             then Raise (ValueError ("Missing " ++ key ++ " parameter"))
             else Ok tt) = Ok tt <->
            exists v, dict_get kwargs key = Some v /\ v <> PNone).
  { intros key. destruct (dict_get kwargs key) as [v|]; simpl.
    - destruct (is_None v) eqn:Hv.
      + apply is_None_true in Hv. subst. split; [discriminate|].
        intros (v & Hv & Hn). congruence.
      + apply is_None_false in Hv. split; eauto.
    - split; [discriminate|]. intros (v & Hv & _). discriminate. }
  destruct kwargs as [|kv kwargs]; cbn [length Nat.eqb].
  - split; [discriminate|].
    intros H. destruct (H "stamp") as (v & Hv & _); [simpl; auto | discriminate].
  - rewrite check_each_ok. split; intros H key Hk; apply Hbody; auto.
Qed.

(** Property X3 (mandatory keys).  [validate_data_dict] accepts a value that
    is not [None] exactly when every key marked mandatory is a key of it, as
    a dictionary, with a value other than [None]; so with a mandatory key
    only a dictionary passes.  The entries that are not mandatory have no
    effect at all: dropping them from [key_dict] gives the same result, error
    included. *)
Theorem validate_data_dict_accepts (keys : list (string * bool)) (data_dict : pyval) :
  (validate_data_dict (Some keys) data_dict = Ok tt <->
   data_dict <> PNone /\
   forall key, In (key, true) keys ->
               exists d x, data_dict = PDict d /\ dict_get d key = Some x /\ x <> PNone)
  /\ validate_data_dict (Some keys) data_dict
     = validate_data_dict (Some (filter snd keys)) data_dict.
Proof.
  split; [apply validate_data_dict_ok|].
  unfold validate_data_dict. destruct (is_None data_dict); [reflexivity|].
  unfold check_each. induction keys as [|[k [|]] keys IH]; cbn [filter snd fst for_each].
  - reflexivity.
  - destruct (py_contains data_dict k) as [[|]|e]; simpl; auto.
    destruct (py_getitem data_dict k) as [v|e]; simpl; auto.
    destruct (is_None v); simpl; auto.
  - simpl. exact IH.
Qed.

(** Property X4 (first failing key).  On a dictionary, when the mandatory
    keys before [key] in [key_dict] are all present with a value, a missing
    [key] raises the missing-key [KeyError] that names it, and a [key] whose
    value is [None] raises the invalid-value [KeyError] that names it,
    whatever comes after. *)
Theorem validate_data_dict_first_failure (pre post : list (string * bool)) (key : string)
    (d : dict)
    (Hpre : forall k, In (k, true) pre -> exists x, dict_get d k = Some x /\ x <> PNone) :
  (dict_get d key = None ->
   validate_data_dict (Some (pre ++ (key, true) :: post)%list) (PDict d)
   = Raise (KeyError ("Missing mandatory key: " ++ key)))
  /\ (dict_get d key = Some PNone ->
      validate_data_dict (Some (pre ++ (key, true) :: post)%list) (PDict d)
      = Raise (KeyError ("Invalid value in " ++ key ++ " parameter"))).
Proof.
  assert (Hok : forall y, In y pre -> check_entry (PDict d) y = Ok tt).
  { intros [k [|]] Hy; [|reflexivity].
    apply check_entry_mandatory_ok. destruct (Hpre k Hy) as (x & Hg & Hx).
    exists d, x. auto. }
  split; intros Hg; rewrite validate_data_dict_loop by reflexivity;
    apply check_each_first; auto; unfold check_entry; cbn [fst snd py_contains].
  - rewrite (dict_get_none_key _ _ Hg). reflexivity.
  - rewrite (dict_get_some_key _ _ _ Hg). simpl. rewrite Hg. reflexivity.
Qed.

(** An instance. *)
Lemma validate_data_dict_first_failure_witness :
  validate_data_dict (Some address_keySet)
    (PDict [("streetAddress", PStr "Fake street 123"); ("postalCode", PNone)])
  = Raise (KeyError "Invalid value in postalCode parameter").
Proof.
  apply (proj2 (validate_data_dict_first_failure
                  [("streetAddress", true)]
                  [("city", true); ("county", false); ("country", true)]
                  "postalCode"
                  [("streetAddress", PStr "Fake street 123"); ("postalCode", PNone)]
                  ltac:(intros k [H | []]; injection H as <-;
                        eexists; (split; [reflexivity | discriminate])))).
  reflexivity.
Defined.

Lemma validate_data_dict_ok_dict (keys : list (string * bool)) (key : string)
    (data_dict : pyval) :
  In (key, true) keys ->
  (validate_data_dict (Some keys) data_dict = Ok tt <->
   exists d, data_dict = PDict d /\
             forall k, In (k, true) keys -> exists x, dict_get d k = Some x /\ x <> PNone).
Proof.
  intros Hkey. rewrite validate_data_dict_ok. split.
  - intros [_ H]. destruct (H key Hkey) as (d & _ & -> & _). exists d. split; [reflexivity|].
    intros k Hk. destruct (H k Hk) as (d' & x & Hd & Hg & Hx).
    injection Hd as <-. eauto.
  - intros (d & -> & H). split; [discriminate|].
    intros k Hk. destruct (H k Hk) as (x & Hg & Hx). exists d, x. auto.
Qed.

(** Property X5 (customer record).
    [validate_customer_key_value_in_create_payment] accepts exactly the
    dictionaries that have firstName, lastName and email with values other
    than [None]; phone and vatId are free. *)
Theorem validate_customer_accepts (customer_dict : pyval) :
  validate_customer_key_value_in_create_payment customer_dict = Ok tt <->
  exists d, customer_dict = PDict d /\
            forall key, In key ["firstName"; "lastName"; "email"] ->
                        exists x, dict_get d key = Some x /\ x <> PNone.
Proof.
  unfold validate_customer_key_value_in_create_payment.
  destruct (is_None customer_dict) eqn:Hn.
  - apply is_None_true in Hn. subst. split; [discriminate|].
    intros (d & Hd & _). discriminate.
  - rewrite (validate_data_dict_ok_dict customer_keySet "email")
      by (simpl; tauto).
    split; intros (d & -> & H); exists d; (split; [reflexivity|]); intros k Hk; apply H.
    + simpl in Hk |- *. intuition (subst; auto).
    + simpl in Hk |- *.
      repeat (destruct Hk as [Hk | Hk]; [injection Hk as <-; try discriminate; auto|]);
        try discriminate; tauto.
Qed.

(** Property X6 (customer without email).  On a customer dictionary with a
    first and a last name and no email key, the customer check raises the
    missing-key [KeyError] for email, whatever else the dictionary holds. *)
Theorem validate_customer_missing_email (d : dict) (first last : pyval)
    (Hfirst : dict_get d "firstName" = Some first) (Hf : first <> PNone)
    (Hlast : dict_get d "lastName" = Some last) (Hl : last <> PNone)
    (Hemail : dict_get d "email" = None) :
  validate_customer_key_value_in_create_payment (PDict d)
  = Raise (KeyError "Missing mandatory key: email").
Proof.
  unfold validate_customer_key_value_in_create_payment. cbn [is_None].
  apply (validate_data_dict_first [("firstName", true); ("lastName", true)]
           [("phone", false); ("vatId", false)] "email" d); [|exact Hemail].
  intros k [H | [H | []]]; injection H as <-; eauto.
Qed.

(** An instance. *)
Lemma validate_customer_missing_email_witness :
  validate_customer_key_value_in_create_payment
    (PDict [("lastName", PStr "Doe"); ("phone", PInt 358501234567);
            ("firstName", PStr "John")])
  = Raise (KeyError "Missing mandatory key: email").
Proof.
  apply (validate_customer_missing_email
           [("lastName", PStr "Doe"); ("phone", PInt 358501234567);
            ("firstName", PStr "John")]
           (PStr "John") (PStr "Doe")
           eq_refl ltac:(discriminate) eq_refl ltac:(discriminate) eq_refl).
Defined.

Lemma isinstance_int_cases (v : pyval) :
  isinstance_int v = true <-> (exists z, v = PInt z) \/ (exists b, v = PBool b).
Proof.
  destruct v; simpl; split; try discriminate; eauto;
    intros [[? H] | [? H]]; discriminate.
Qed.

(** Property X7 (one item).  [validate_item_data_in_create_payment] accepts
    exactly the dictionaries in which unitPrice, units and vatPercentage are
    integers, booleans included, and productCode and deliveryDate have a
    value other than [None]. *)
Theorem validate_item_accepts (data_dict : pyval) :
  validate_item_data_in_create_payment data_dict = Ok tt <->
  exists d, data_dict = PDict d
    /\ (forall key, In key ["unitPrice"; "units"; "vatPercentage"] ->
          exists x, dict_get d key = Some x /\
                    ((exists z, x = PInt z) \/ (exists b, x = PBool b)))
    /\ (forall key, In key ["productCode"; "deliveryDate"] ->
          exists x, dict_get d key = Some x /\ x <> PNone).
Proof.
  unfold validate_item_data_in_create_payment.
  destruct (is_None data_dict) eqn:Hn.
  { apply is_None_true in Hn. subst. split; [discriminate|].
    intros (d & Hd & _). discriminate. }
  split.
  - destruct (validate_data_dict (Some item_keySet) data_dict) as [[]|e] eqn:Hv;
      [|discriminate].
    apply (validate_data_dict_ok_dict item_keySet "units") in Hv; [|simpl; tauto].
    destruct Hv as (d & -> & Hk). cbn [bind py_getitem].
    destruct (Hk "unitPrice") as (p & Hp & _); [simpl; tauto|].
    destruct (Hk "units") as (u & Hu & _); [simpl; tauto|].
    destruct (Hk "vatPercentage") as (v & Hv & _); [simpl; tauto|].
    rewrite Hp, Hu, Hv. unfold validate_int_value. cbn [bind].
    destruct (isinstance_int p) eqn:Ip; [|discriminate].
    destruct (isinstance_int u) eqn:Iu; [|discriminate].
    destruct (isinstance_int v) eqn:Iv; [|discriminate].
    intros _. exists d. split; [reflexivity|]. split.
    + intros key [<- | [<- | [<- | []]]]; eexists; (split; [eassumption|]);
        now apply isinstance_int_cases.
    + intros key [<- | [<- | []]]; apply Hk; simpl; tauto.
  - intros (d & -> & Hnum & Hoth).
    assert (Hint : forall key, In key ["unitPrice"; "units"; "vatPercentage"] ->
                     exists x, dict_get d key = Some x /\ isinstance_int x = true).
    { intros key Hkey. destruct (Hnum key Hkey) as (x & Hg & Hx).
      exists x. split; [exact Hg|]. now apply isinstance_int_cases. }
    assert (Hv : validate_data_dict (Some item_keySet) (PDict d) = Ok tt).
    { apply (validate_data_dict_ok_dict item_keySet "units"); [simpl; tauto|].
      exists d. split; [reflexivity|].
      intros k Hk.
      assert (Hcases : In k ["unitPrice"; "units"; "vatPercentage"] \/
                       In k ["productCode"; "deliveryDate"]).
      { simpl in Hk |- *.
        repeat (destruct Hk as [Hk | Hk];
                [first [discriminate Hk | injection Hk as <-; tauto]|]).
        contradiction. }
      destruct Hcases as [Hc | Hc]; [|now apply Hoth].
      destruct (Hint k Hc) as (x & Hg & Hx).
      exists x. split; [exact Hg|]. intros ->. discriminate. }
    rewrite Hv. cbn [bind py_getitem].
    destruct (Hint "unitPrice") as (p & Hp & Ip); [simpl; tauto|].
    destruct (Hint "units") as (u & Hu & Iu); [simpl; tauto|].
    destruct (Hint "vatPercentage") as (v & Hv' & Iv); [simpl; tauto|].
    rewrite Hp, Hu, Hv'. unfold validate_int_value. cbn [bind].
    now rewrite Ip, Iu, Iv.
Qed.

(** Property X8 (URL pairs).  [validate_callback_urls_data] accepts exactly
    the dictionaries with a success and a cancel entry other than [None]: the
    values are not inspected, neither their type nor their scheme. *)
Theorem validate_callback_urls_accepts (data_dict : pyval) :
  validate_callback_urls_data data_dict = Ok tt <->
  exists d success cancel,
    data_dict = PDict d
    /\ dict_get d "success" = Some success /\ success <> PNone
    /\ dict_get d "cancel" = Some cancel /\ cancel <> PNone.
Proof.
  unfold validate_callback_urls_data.
  destruct (is_None data_dict) eqn:Hn.
  { apply is_None_true in Hn. subst. split; [discriminate|].
    intros (d & s & c & Hd & _). discriminate. }
  rewrite (validate_data_dict_ok_dict callback_keySet "success") by (simpl; tauto).
  split.
  - intros (d & -> & H).
    destruct (H "success") as (s & Hs & Hsn); [simpl; tauto|].
    destruct (H "cancel") as (c & Hc & Hcn); [simpl; tauto|].
    exists d, s, c. auto.
  - intros (d & s & c & -> & Hs & Hsn & Hc & Hcn). exists d. split; [reflexivity|].
    intros k [H | [H | []]]; injection H as <-; eauto.
Qed.

Lemma py_eq_str_false (v : pyval) (s : string) : py_eq_str v s = false <-> v <> PStr s.
Proof.
  rewrite <- py_eq_str_true. destruct (py_eq_str v s); split; congruence.
Qed.

(** [api_type] is one of the four names of [_accepted_api_type]. *)
Lemma accepted_api_type_cases (api_type : pyval) :
  existsb (py_eq_str api_type) _accepted_api_type = true <->
  api_type = PStr "Payments" \/ api_type = PStr "PaymentDetails" \/
  api_type = PStr "Refund" \/ api_type = PStr "ListProviders".
Proof.
  unfold _accepted_api_type. cbn [existsb].
  rewrite !orb_true_iff, !py_eq_str_true. intuition discriminate.
Qed.

Lemma not_accepted_api_type (api_type : pyval) :
  existsb (py_eq_str api_type) _accepted_api_type = false <->
  forall s, In s _accepted_api_type -> api_type <> PStr s.
Proof.
  split.
  - intros H s Hs ->.
    assert (Ht : existsb (py_eq_str (PStr s)) _accepted_api_type = true).
    { apply existsb_exists. exists s. split; [exact Hs|]. apply String.eqb_refl. }
    congruence.
  - intros H. destruct (existsb _ _) eqn:E; [|reflexivity].
    apply existsb_exists in E. destruct E as (s & Hs & Heq).
    apply py_eq_str_true in Heq. now apply H in Hs.
Qed.

(** Property X9 (the header set).  [get_req_header_dict] returns exactly
    when no timestamp is given and the operation is one of the four, with a
    transaction id other than [None] for PaymentDetails and Refund.  It then
    leaves the world as it was and returns, in this order, account, algorithm
    sha256, method, nonce and the clock's timestamp, followed for
    PaymentDetails and Refund by the transaction id as given.  Method, nonce
    and transaction id are copied unchecked. *)
Theorem get_req_header_dict_returns (self : CheckoutCli)
    (api_type method request_id trans_id time_stamp_string : pyval)
    (w w' : world) (header_dict : dict) :
  get_req_header_dict self api_type method request_id trans_id time_stamp_string w
    = (Ok header_dict, w') <->
  time_stamp_string = PNone /\ w' = w /\
  (((api_type = PStr "Payments" \/ api_type = PStr "ListProviders") /\
    header_dict = [ ("checkout-account", _merchant_id self);
                    ("checkout-algorithm", PStr "sha256");
                    ("checkout-method", method);
                    ("checkout-nonce", request_id);
                    ("checkout-timestamp", PStr (strftime (now w))) ])
   \/
   ((api_type = PStr "PaymentDetails" \/ api_type = PStr "Refund") /\
    trans_id <> PNone /\
    header_dict = [ ("checkout-account", _merchant_id self);
                    ("checkout-algorithm", PStr "sha256");
                    ("checkout-method", method);
                    ("checkout-nonce", request_id);
                    ("checkout-timestamp", PStr (strftime (now w)));
                    ("checkout-transaction-id", trans_id) ])).
Proof.
  split.
  - unfold get_req_header_dict.
    destruct (existsb (py_eq_str api_type) _accepted_api_type) eqn:Ha; [|discriminate].
    apply accepted_api_type_cases in Ha. cbn [negb].
    destruct (is_None time_stamp_string) eqn:Hts.
    + apply is_None_true in Hts.
      destruct Ha as [-> | [-> | [-> | ->]]]; cbn.
      * intros H. injection H as <- <-. auto 10.
      * destruct (is_None trans_id) eqn:Ht; [discriminate|].
        apply is_None_false in Ht. intros H. injection H as <- <-. auto 10.
      * destruct (is_None trans_id) eqn:Ht; [discriminate|].
        apply is_None_false in Ht. intros H. injection H as <- <-. auto 10.
      * intros H. injection H as <- <-. auto 10.
    + destruct (_ && _); discriminate.
  - intros (-> & -> & [[[-> | ->] ->] | [[-> | ->] [Ht ->]]]);
      try reflexivity; apply is_None_false in Ht;
      unfold get_req_header_dict; cbn; rewrite Ht; reflexivity.
Qed.

(** Property X10 (operation names).  [get_req_header_dict] raises the
    [ValueError] for [api_type] exactly when [api_type] is none of the four
    names of [_accepted_api_type]; the parameter's own default, Payment, is
    not one of them. *)
Theorem get_req_header_dict_api_type (self : CheckoutCli)
    (api_type method request_id trans_id time_stamp_string : pyval) (w : world) :
  (get_req_header_dict self api_type method request_id trans_id time_stamp_string w
     = (Raise (ValueError "Invalid value in api_type parameter"), w) <->
   forall s, In s _accepted_api_type -> api_type <> PStr s)
  /\ get_req_header_dict self (PStr "Payment") method request_id trans_id
       time_stamp_string w
     = (Raise (ValueError "Invalid value in api_type parameter"), w).
Proof.
  split; [|reflexivity].
  rewrite <- not_accepted_api_type. unfold get_req_header_dict.
  destruct (existsb (py_eq_str api_type) _accepted_api_type); cbn [negb].
  - split; [|discriminate].
    destruct (_ && _); [discriminate|].
    destruct (is_None time_stamp_string); cbn; [|discriminate].
    destruct (_ || _); discriminate.
  - split; reflexivity.
Qed.

(** Property X11 (URLs, the other outcomes).  [get_post_url] returns [None],
    without an error, exactly when [api_type] is none of the four names; and
    it raises [TypeError] exactly when the operation is PaymentDetails or
    Refund and the transaction id is neither [None] nor a string. *)
Theorem get_post_url_other_outcomes (self : CheckoutCli) (api_type transaction_id : pyval) :
  (get_post_url self api_type transaction_id = Ok PNone <->
   forall s, In s _accepted_api_type -> api_type <> PStr s)
  /\ (get_post_url self api_type transaction_id = Raise TypeError <->
      (api_type = PStr "PaymentDetails" \/ api_type = PStr "Refund") /\
      transaction_id <> PNone /\ isinstance_str transaction_id = false).
Proof.
  rewrite <- not_accepted_api_type.
  unfold get_post_url, validate_trans_id_data, _accepted_api_type. cbn [existsb].
  destruct (py_eq_str api_type "Payments") eqn:E1.
  { apply py_eq_str_true in E1. subst. simpl.
    repeat split; try discriminate. intros [[H | H] _]; discriminate. }
  destruct (py_eq_str api_type "PaymentDetails") eqn:E2.
  { apply py_eq_str_true in E2. subst. cbn [orb].
    destruct transaction_id as [| | |t| |]; simpl;
      try (repeat split; try discriminate; auto; intros (_ & H & _); congruence);
      try (repeat split; try discriminate; auto; intros (_ & _ & H); discriminate).
    destruct (String.eqb t EmptyString); simpl;
      (repeat split; try discriminate; intros (_ & _ & H); discriminate). }
  destruct (py_eq_str api_type "Refund") eqn:E3.
  { apply py_eq_str_true in E3. subst. cbn [orb].
    destruct transaction_id as [| | |t| |]; simpl;
      try (repeat split; try discriminate; auto; intros (_ & H & _); congruence);
      try (repeat split; try discriminate; auto; intros (_ & _ & H); discriminate).
    destruct (String.eqb t EmptyString); simpl;
      (repeat split; try discriminate; intros (_ & _ & H); discriminate). }
  apply py_eq_str_false in E2, E3.
  destruct (py_eq_str api_type "ListProviders") eqn:E4; simpl.
  - repeat split; try discriminate. intros [[H | H] _]; contradiction.
  - repeat split; try discriminate. intros [[H | H] _]; contradiction.
Qed.

(** Property X12 (a constructed client).  Whatever the mode, a client that
    [__init__] returns has the base URL https://api.checkout.fi, keeps the
    mode flag it was given, and has a merchant id other than [None]; its
    payment and provider URLs are the fixed ones. *)
Theorem init_client_invariant (is_test_mode merchant_id secret_key : pyval)
    (self : CheckoutCli)
    (Hinit : __init__ is_test_mode merchant_id secret_key = Ok self) :
  _base_api_end_point self = "https://api.checkout.fi"
  /\ _is_test_mode self = is_test_mode
  /\ _merchant_id self <> PNone
  /\ (forall tx, get_post_url self (PStr "Payments") tx
                 = Ok (PStr "https://api.checkout.fi/payments"))
  /\ (forall tx, get_post_url self (PStr "ListProviders") tx
                 = Ok (PStr "https://api.checkout.fi/merchants/payment-providers")).
Proof.
  unfold __init__ in Hinit.
  destruct (py_eq_int is_test_mode 1).
  - injection Hinit as <-. repeat split; discriminate.
  - destruct (is_None merchant_id) eqn:Hm; [discriminate|].
    destruct (is_None secret_key); [discriminate|].
    injection Hinit as <-. apply is_None_false in Hm. repeat split; exact Hm.
Qed.

(** An instance. *)
Lemma init_client_invariant_witness :
  __init__ (PInt 0) (PInt 375917) (PStr "SAIPPUAKAUPPIAS")
    = Ok {| _is_test_mode := PInt 0;
            _base_api_end_point := "https://api.checkout.fi";
            _merchant_id := PInt 375917;
            _secret_key := "SAIPPUAKAUPPIAS" |}
  /\ get_post_url {| _is_test_mode := PInt 0;
                     _base_api_end_point := "https://api.checkout.fi";
                     _merchant_id := PInt 375917;
                     _secret_key := "SAIPPUAKAUPPIAS" |} (PStr "Payments") PNone
     = Ok (PStr "https://api.checkout.fi/payments").
Proof.
  split; [reflexivity|].
  apply (init_client_invariant (PInt 0) (PInt 375917) (PStr "SAIPPUAKAUPPIAS") _ eq_refl).
Defined.

Lemma app_one_neq {A : Type} (l : list A) (x : A) : (l ++ [x])%list <> l.
Proof.
  intros H. apply (f_equal (@length A)) in H. rewrite length_app in H. simpl in H. lia.
Qed.

(** The request that [send_request] puts on the wire. *)
Lemma send_request_wire (net : transport)
    (send_method _api_post_url req_input : pyval) (headers_dict : dict) (w : world) :
  is_None _api_post_url || py_eq_str _api_post_url EmptyString = false ->
  snd (send_request net send_method _api_post_url req_input headers_dict w)
  = {| now := now w;
       wire := wire w ++
               [ {| verb := if py_eq_str send_method "POST" then "post" else "get";
                    url := _api_post_url;
                    data := req_input;
                    params := if py_eq_str send_method "POST" then PNone else req_input;
                    headers := headers_dict |} ] |}.
Proof.
  intros Hurl. unfold send_request. rewrite Hurl.
  destruct (py_eq_str send_method "POST"), (is_None req_input) eqn:Hn;
    try (apply is_None_true in Hn; subst req_input);
    unfold io_bind, requests_call;
    match goal with |- context [net ?l ?rq] => destruct (net l rq) as [res|e] end;
    try reflexivity;
    destruct (negb _ && negb _); reflexivity.
Qed.

(** Property X13 (no URL, no request).  [send_request] raises the
    [ValueError] for a missing URL, with nothing sent, exactly when the URL
    is [None] or the empty string; and the wire is unchanged after the call
    exactly in that case. *)
Theorem send_request_needs_url (net : transport)
    (send_method _api_post_url req_input : pyval) (headers_dict : dict) (w : world) :
  (send_request net send_method _api_post_url req_input headers_dict w
     = (Raise (ValueError "Need post URL data"), w) <->
   _api_post_url = PNone \/ _api_post_url = PStr EmptyString)
  /\ (wire (snd (send_request net send_method _api_post_url req_input headers_dict w))
        = wire w <->
      _api_post_url = PNone \/ _api_post_url = PStr EmptyString).
Proof.
  rewrite <- is_None_true, <- py_eq_str_true, <- orb_true_iff.
  destruct (is_None _api_post_url || py_eq_str _api_post_url EmptyString) eqn:Hurl.
  - unfold send_request. rewrite Hurl. repeat split; reflexivity.
  - pose proof (send_request_wire net send_method _api_post_url req_input headers_dict w Hurl)
      as Hw.
    split; (split; [|discriminate]); intros H; exfalso.
    + rewrite H in Hw. cbn [snd] in Hw. apply (f_equal wire) in Hw. cbn [wire] in Hw.
      symmetry in Hw. now apply app_one_neq in Hw.
    + rewrite Hw in H. cbn [wire] in H. now apply app_one_neq in H.
Qed.

(** Property X14 (verb and payload).  Given a URL, [send_request] sends one
    request: a POST exactly when [send_method] is the string POST, and a GET
    for every other value; the input goes as the data of the request, and for
    a GET also as its query parameters. *)
Theorem send_request_dispatch (net : transport)
    (send_method _api_post_url req_input : pyval) (headers_dict : dict) (w : world)
    (Hurl : is_None _api_post_url || py_eq_str _api_post_url EmptyString = false) :
  exists rq : request,
    wire (snd (send_request net send_method _api_post_url req_input headers_dict w))
      = (wire w ++ [rq])%list
    /\ verb rq = (if py_eq_str send_method "POST" then "post" else "get")
    /\ data rq = req_input
    /\ params rq = (if py_eq_str send_method "POST" then PNone else req_input).
Proof.
  rewrite (send_request_wire net send_method _api_post_url req_input headers_dict w Hurl).
  eexists. cbn [wire]. split; [reflexivity|]. repeat split.
Qed.

(** An instance. *)
Lemma send_request_dispatch_witness :
  is_None (PStr "https://api.checkout.fi/payments/42")
    || py_eq_str (PStr "https://api.checkout.fi/payments/42") EmptyString = false
  /\ exists rq : request,
       wire (snd (send_request (answer 200 EmptyString) (PStr "PUT")
                    (PStr "https://api.checkout.fi/payments/42") (PStr "x=1") [] w0))
         = [rq]
       /\ verb rq = "get" /\ data rq = PStr "x=1" /\ params rq = PStr "x=1".
Proof.
  split; [reflexivity|].
  exact (send_request_dispatch (answer 200 EmptyString) (PStr "PUT")
           (PStr "https://api.checkout.fi/payments/42") (PStr "x=1") [] w0 eq_refl).
Defined.

(** Signing a header set stops in the loop over its keys, or at [sys]. *)
Lemma get_hash_sha256_on_headers
    (hmac_sha256_hexdigest : string -> string -> string) (self : CheckoutCli)
    (h : dict) (body : option pyval) :
  get_hash_sha256 hmac_sha256_hexdigest self {| kw_headers := Some h; kw_body := body |}
  = match h with
    | [] => Raise (NameError "sys")
    | _ :: _ => Raise TypeError
    end.
Proof.
  destruct h as [|[k v] rest]; [reflexivity|].
  unfold get_hash_sha256, kwargs_len. simpl kw_headers.
  cbn [Nat.add Nat.eqb bind dict_keys map fst].
  destruct (sorted_cons k (map fst rest)) as (x & t & Hs). rewrite Hs.
  destruct (sorted_cons x t) as (x' & t' & Hs'). rewrite Hs'.
  reflexivity.
Qed.

(** Property X15 (errors of signing).  [get_hash_sha256] raises a [KeyError]
    exactly when no [headers] argument is given, and the one for missing
    input exactly when no argument is given at all; and its outcome depends
    neither on the client (so not on the secret key) nor on the HMAC
    function. *)
Theorem get_hash_sha256_errors
    (hmac_sha256_hexdigest : string -> string -> string) (self : CheckoutCli)
    (kwargs : hmac_kwargs) :
  ((exists msg, get_hash_sha256 hmac_sha256_hexdigest self kwargs = Raise (KeyError msg))
   <-> kw_headers kwargs = None)
  /\ (get_hash_sha256 hmac_sha256_hexdigest self kwargs
        = Raise (KeyError "Expect input parameters")
      <-> kw_headers kwargs = None /\ kw_body kwargs = None)
  /\ (forall (other_hmac : string -> string -> string) (other : CheckoutCli),
        get_hash_sha256 other_hmac other kwargs
        = get_hash_sha256 hmac_sha256_hexdigest self kwargs).
Proof.
  destruct kwargs as [[h|] body]; cbn [kw_headers kw_body].
  - split; [|split].
    + split; [|discriminate].
      intros [msg H]. rewrite get_hash_sha256_on_headers in H. destruct h; discriminate.
    + split; [|intros [H _]; discriminate].
      rewrite get_hash_sha256_on_headers. destruct h; discriminate.
    + intros. now rewrite !get_hash_sha256_on_headers.
  - split; [|split].
    + split; [reflexivity|]. intros _. destruct body; cbn; eauto.
    + destruct body; cbn; split; try discriminate; auto.
      intros [_ H]. discriminate.
    + intros. destruct body; reflexivity.
Qed.

Lemma presence_first_missing
    (kwargs : dict) (pre post : list string) (key : string) :
  get_create_payment_keys = (pre ++ key :: post)%list ->
  kwargs <> [] ->
  (forall k, In k pre -> exists v, dict_get kwargs k = Some v /\ v <> PNone) ->
  dict_get kwargs key = None \/ dict_get kwargs key = Some PNone ->
  validate_create_payment_input kwargs
  = Raise (ValueError ("Missing " ++ key ++ " parameter")).
Proof.
  intros Hkeys Hgiven Hpre Hmissing.
  unfold validate_create_payment_input.
  destruct kwargs as [|kv kwargs]; [contradiction|]. cbn [length Nat.eqb].
  rewrite Hkeys. apply check_each_first.
  - intros k Hk. destruct (Hpre k Hk) as (v & -> & Hv).
    apply is_None_false in Hv. now rewrite Hv.
  - destruct Hmissing as [-> | ->]; reflexivity.
Qed.

Lemma language_ok_is_str (language : pyval) :
  validate_language_code2 language = Ok tt -> py_upper_call language = Ok tt.
Proof.
  unfold validate_language_code2. destruct language; simpl; try discriminate. reflexivity.
Qed.

Section Stages.

Variable hmac_sha256_hexdigest : string -> string -> string.
Variable net : transport.

(** The steps up to the customer: presence, currency and language are
    passed. *)
Lemma create_payment_to_customer (self : CheckoutCli) (request_id stamp : pyval)
    (d : dict) (w : world) (language customer : pyval) :
  is_None request_id = false ->
  dict_get d "self" = None ->
  validate_create_payment_input d = Ok tt ->
  dict_get d "currency" = Some (PStr "EUR") ->
  dict_get d "language" = Some language ->
  validate_language_code2 language = Ok tt ->
  dict_get d "customer" = Some customer ->
  (type_is_dict customer = false ->
   create_payment hmac_sha256_hexdigest net self request_id (PDict d) stamp w
   = (Raise (ValueError "Invalid data type for customer key"), w))
  /\ (type_is_dict customer = true ->
      forall a e,
        dict_get d "invoicingAddress" = Some a ->
        validate_address_value_in_create_payment a = Raise e ->
        create_payment hmac_sha256_hexdigest net self request_id (PDict d) stamp w
        = (Raise e, w)).
Proof.
  intros Hrid Hself Hp Hc Hl Hlang Hcust.
  split; [intros Ht | intros Ht a e Ha He];
    unfold create_payment; rewrite Hrid;
    destruct (py_eq_int _ 1); cbn [is_None]; rewrite io_bind_ret;
      rewrite io_bind_lift; cbn [unpack_kwargs]; rewrite (dict_get_none_key _ _ Hself);
    cbn [bind]; rewrite Hp;
      rewrite io_bind_lift; cbn [py_getitem]; rewrite Hc;
      cbn [py_eq_str String.eqb Ascii.eqb Bool.eqb negb];
      rewrite io_bind_lift, Hl, io_bind_lift, Hlang, io_bind_lift; cbn [bind];
      rewrite (language_ok_is_str _ Hlang), io_bind_lift, Hcust, Ht; cbn [negb];
      try reflexivity;
      rewrite io_bind_lift, Ha; cbn [bind]; rewrite He; reflexivity.
Qed.

End Stages.

(** Property X16 (payload type).  With a request id, [create_payment] on a
    payment that is neither [None] nor a dictionary (a JSON string, say)
    raises [TypeError] and sends nothing. *)
Theorem create_payment_rejects_non_dict
    (hmac_sha256_hexdigest : string -> string -> string) (net : transport)
    (self : CheckoutCli) (request_id input_data_dict time_stamp_string : pyval) (w : world)
    (Hrid : request_id <> PNone)
    (Hgiven : input_data_dict <> PNone)
    (Htype : type_is_dict input_data_dict = false) :
  create_payment hmac_sha256_hexdigest net self request_id input_data_dict
    time_stamp_string w = (Raise TypeError, w).
Proof.
  apply is_None_false in Hrid, Hgiven.
  unfold create_payment. rewrite Hrid, Hgiven.
  destruct (py_eq_int _ 1); rewrite io_bind_ret, io_bind_lift;
    destruct input_data_dict; try discriminate; reflexivity.
Qed.

(** An instance. *)
Lemma create_payment_rejects_non_dict_witness :
  PStr "req-1" <> PNone
  /\ create_payment no_hmac (answer 200 EmptyString) test_client (PStr "req-1")
       (PStr "{}") PNone w0 = (Raise TypeError, w0).
Proof.
  split; [discriminate|].
  apply (create_payment_rejects_non_dict no_hmac (answer 200 EmptyString) test_client
           (PStr "req-1") (PStr "{}") PNone w0);
    [discriminate | discriminate | reflexivity].
Defined.

(** Property X17 (first missing key).  With a request id, [create_payment] on
    a non-empty dictionary without the key [self] raises the [ValueError]
    that names the first key of [get_create_payment_keys] that is absent or
    [None], and sends nothing; the currency is not looked at before.  With
    the key [self] the call raises [TypeError] instead, whatever is
    missing. *)
Theorem create_payment_first_missing_key
    (hmac_sha256_hexdigest : string -> string -> string) (net : transport)
    (self : CheckoutCli) (request_id time_stamp_string : pyval) (d : dict) (w : world)
    (pre post : list string) (key : string)
    (Hrid : request_id <> PNone)
    (Hkeys : get_create_payment_keys = (pre ++ key :: post)%list)
    (Hgiven : d <> [])
    (Hpre : forall k, In k pre -> exists v, dict_get d k = Some v /\ v <> PNone)
    (Hmissing : dict_get d key = None \/ dict_get d key = Some PNone) :
  (dict_get d "self" = None ->
   create_payment hmac_sha256_hexdigest net self request_id (PDict d) time_stamp_string w
   = (Raise (ValueError ("Missing " ++ key ++ " parameter")), w))
  /\ (forall v, dict_get d "self" = Some v ->
      create_payment hmac_sha256_hexdigest net self request_id (PDict d)
        time_stamp_string w = (Raise TypeError, w)).
Proof.
  apply is_None_false in Hrid. split.
  - intros Hself. apply create_payment_to_presence; [exact Hrid | exact Hself |].
    now apply presence_first_missing with (pre := pre) (post := post).
  - intros v Hself. now apply create_payment_self_key with (v := v).
Qed.

(** An instance. *)
Lemma create_payment_first_missing_key_witness :
  create_payment no_hmac (answer 200 EmptyString) test_client (PStr "req-1")
    (PDict [("stamp", PInt 29858472952); ("reference", PInt 9187445);
            ("currency", PStr "USD")]) PNone w0
  = (Raise (ValueError "Missing amount parameter"), w0).
Proof.
  refine (proj1 (create_payment_first_missing_key no_hmac (answer 200 EmptyString)
           test_client (PStr "req-1") PNone
           [("stamp", PInt 29858472952); ("reference", PInt 9187445);
            ("currency", PStr "USD")] w0
           ["stamp"; "reference"]
           ["currency"; "language"; "items"; "customer"; "deliveryAddress";
            "invoicingAddress"; "redirectUrls"; "callbackUrls"]
           "amount" _ _ _ _ _) _).
  - discriminate.
  - reflexivity.
  - discriminate.
  - intros k [<- | [<- | []]]; eexists; (split; [reflexivity | discriminate]).
  - left. reflexivity.
  - reflexivity.
Defined.

(** Property X18 (customer type).  A payment without the key [self] that
    passes the presence, currency and language checks and whose customer is
    not a dictionary is refused with the [ValueError] for the customer's
    type. *)
Theorem create_payment_customer_type
    (hmac_sha256_hexdigest : string -> string -> string) (net : transport)
    (self : CheckoutCli) (request_id time_stamp_string : pyval) (d : dict) (w : world)
    (language customer : pyval)
    (Hrid : request_id <> PNone)
    (Hself : dict_get d "self" = None)
    (Hpresent : validate_create_payment_input d = Ok tt)
    (Hcurrency : dict_get d "currency" = Some (PStr "EUR"))
    (Hlanguage : dict_get d "language" = Some language)
    (Hlang : validate_language_code2 language = Ok tt)
    (Hcustomer : dict_get d "customer" = Some customer)
    (Htype : type_is_dict customer = false) :
  create_payment hmac_sha256_hexdigest net self request_id (PDict d) time_stamp_string w
  = (Raise (ValueError "Invalid data type for customer key"), w).
Proof.
  apply is_None_false in Hrid.
  now apply (proj1 (create_payment_to_customer hmac_sha256_hexdigest net self request_id
                      time_stamp_string d w language customer
                      Hrid Hself Hpresent Hcurrency Hlanguage Hlang Hcustomer)).
Qed.

(** An instance. *)
Lemma create_payment_customer_type_witness :
  create_payment no_hmac (answer 200 EmptyString) test_client (PStr "req-1")
    (PDict (payment_with (PStr "EUR") (PStr "John Doe"))) PNone w0
  = (Raise (ValueError "Invalid data type for customer key"), w0).
Proof.
  apply (create_payment_customer_type no_hmac (answer 200 EmptyString) test_client
           (PStr "req-1") PNone (payment_with (PStr "EUR") (PStr "John Doe")) w0
           (PStr "FI") (PStr "John Doe"));
    [discriminate | reflexivity | reflexivity | reflexivity | reflexivity
    | reflexivity | reflexivity | reflexivity].
Defined.

(** Property X19 (the invoicing address ends the call).  A payment without
    the key [self] that passes the presence, currency and language checks
    and whose customer is a dictionary ends with the error that the address
    check raises on its
    invoicing address: the delivery address, the items and the URL pairs are
    never examined. *)
Theorem create_payment_stops_at_invoicing_address
    (hmac_sha256_hexdigest : string -> string -> string) (net : transport)
    (self : CheckoutCli) (request_id time_stamp_string : pyval) (d : dict) (w : world)
    (language address : pyval) (customer : dict)
    (Hrid : request_id <> PNone)
    (Hself : dict_get d "self" = None)
    (Hpresent : validate_create_payment_input d = Ok tt)
    (Hcurrency : dict_get d "currency" = Some (PStr "EUR"))
    (Hlanguage : dict_get d "language" = Some language)
    (Hlang : validate_language_code2 language = Ok tt)
    (Hcustomer : dict_get d "customer" = Some (PDict customer))
    (Haddress : dict_get d "invoicingAddress" = Some address) :
  exists e,
    validate_address_value_in_create_payment address = Raise e
    /\ create_payment hmac_sha256_hexdigest net self request_id (PDict d)
         time_stamp_string w = (Raise e, w).
Proof.
  apply is_None_false in Hrid.
  destruct (validate_address_raises address) as [e He]. exists e. split; [exact He|].
  now apply (proj2 (create_payment_to_customer hmac_sha256_hexdigest net self request_id
                      time_stamp_string d w language (PDict customer)
                      Hrid Hself Hpresent Hcurrency Hlanguage Hlang Hcustomer)
               eq_refl address e).
Qed.

(** An instance. *)
Lemma create_payment_stops_at_invoicing_address_witness :
  exists e,
    validate_address_value_in_create_payment test_address = Raise e
    /\ create_payment no_hmac (answer 200 EmptyString) test_client (PStr "req-1")
         (PDict (payment_with (PStr "EUR") no_email_customer)) PNone w0 = (Raise e, w0).
Proof.
  apply (create_payment_stops_at_invoicing_address no_hmac (answer 200 EmptyString)
           test_client (PStr "req-1") PNone
           (payment_with (PStr "EUR") no_email_customer) w0
           (PStr "FI") test_address
           [("firstName", PStr "John"); ("lastName", PStr "Doe")]);
    [discriminate | reflexivity | reflexivity | reflexivity | reflexivity
    | reflexivity | reflexivity | reflexivity].
Defined.

(** Property X20 (no payment given).  With a request id and no payment,
    [create_payment] in test mode runs on the canned payment and ends with
    the [NameError] of the address check; in live mode it raises the
    [KeyError] for missing input.  Nothing is sent either way. *)
Theorem create_payment_without_payload
    (hmac_sha256_hexdigest : string -> string -> string) (net : transport)
    (self : CheckoutCli) (request_id time_stamp_string : pyval) (w : world)
    (Hrid : request_id <> PNone) :
  create_payment hmac_sha256_hexdigest net self request_id PNone time_stamp_string w
  = if py_eq_int (_is_test_mode self) 1
    then (Raise (NameError "value"), w)
    else (Raise (KeyError "Missing input request parameters"), w).
Proof.
  apply is_None_false in Hrid.
  unfold create_payment. rewrite Hrid.
  destruct (py_eq_int _ 1); reflexivity.
Qed.

(** An instance. *)
Lemma create_payment_without_payload_witness :
  create_payment no_hmac (answer 200 EmptyString)
    {| _is_test_mode := PInt 0;
       _base_api_end_point := "https://api.checkout.fi";
       _merchant_id := PStr "375917";
       _secret_key := "SAIPPUAKAUPPIAS" |} (PStr "req-1") PNone PNone w0
  = (Raise (KeyError "Missing input request parameters"), w0).
Proof.
  apply (create_payment_without_payload no_hmac (answer 200 EmptyString)
           {| _is_test_mode := PInt 0;
              _base_api_end_point := "https://api.checkout.fi";
              _merchant_id := PStr "375917";
              _secret_key := "SAIPPUAKAUPPIAS" |} (PStr "req-1") PNone w0).
  discriminate.
Defined.
